(** * The file-converter bot: handlers.py and file_converter.py

    A shallow embedding of the document handler, the button callback and
    the conversion service, with the theorems that settle what the
    specification says about them.

    Python values are modelled as follows.
    - A [str] is the list of its Unicode code points ([N]).
    - [context.user_data] is a dictionary from strings to strings ([gmap]).
    - The file system is a dictionary from resolved path strings to file
      contents.
    - Every call that leaves the program (Telegram, the disk, the document
      libraries) takes its outcome from a [World] record, so that each
      failure the handlers guard against can be exercised.
    - Handlers run in a state-and-exception monad; the state carries the
      session dictionary, the file system, the two path variables of
      [handle_document] and the trace of external calls made so far. *)

From Stdlib Require Import NArith ZArith List String Ascii Bool Lia DecimalString.
From stdpp Require Import gmap list fin_maps.

Open Scope N_scope.

(** ** Python strings *)

Abbreviation pystr := (list N).

(** A literal of the source, as code points (ASCII literals only). *)
Definition py (s : string) : pystr :=
  List.map N_of_ascii (list_ascii_of_string s).

(** [str.lower] on the ASCII letters.  Code points from 128 on are left
    as they are: Unicode's mappings of them never produce a dot, a slash
    or one of the letters of the extensions compared below. *)
Definition lower_char (c : N) : N :=
  if (65 <=? c) && (c <=? 90) then c + 32 else c.

Definition lower (s : pystr) : pystr := List.map lower_char s.

Definition str_eqb (a b : pystr) : bool := bool_decide (a = b).

(** [s.endswith(suffix)] *)
Definition endswith (s suffix : pystr) : bool :=
  (length suffix <=? length s)%nat
  && str_eqb (skipn (length s - length suffix) s) suffix.

(** [s.endswith((a, b, ...))] *)
Definition endswith_any (s : pystr) (suffixes : list pystr) : bool :=
  existsb (endswith s) suffixes.

(** [s.startswith(prefix)] *)
Definition startswith (s prefix : pystr) : bool :=
  str_eqb (firstn (length prefix) s) prefix.

(** [x in [a, b, ...]] *)
Definition str_in (x : pystr) (l : list pystr) : bool :=
  existsb (str_eqb x) l.

(** The code points [str.strip()] removes: the ones for which
    [str.isspace] holds. *)
Definition isspace (c : N) : bool :=
  ((9 <=? c) && (c <=? 13)) || ((28 <=? c) && (c <=? 32))
  || (c =? 133) || (c =? 160) || (c =? 5760)
  || ((8192 <=? c) && (c <=? 8202))
  || (c =? 8232) || (c =? 8233) || (c =? 8239) || (c =? 8287)
  || (c =? 12288).

Fixpoint lstrip (s : pystr) : pystr :=
  match s with
  | c :: s' => if isspace c then lstrip s' else s
  | [] => []
  end.

Definition rstrip (s : pystr) : pystr := rev (lstrip (rev s)).

Definition strip (s : pystr) : pystr := rstrip (lstrip s).

(** Truth value of a string, and of an optional string ([None] is false). *)
Definition truthy (s : pystr) : bool :=
  match s with [] => false | _ => true end.

Definition truthy_opt (o : option pystr) : bool :=
  match o with Some s => truthy s | None => false end.

(** [sep.join(l)] *)
Fixpoint join (sep : pystr) (l : list pystr) : pystr :=
  match l with
  | [] => []
  | [x] => x
  | x :: l' => x ++ sep ++ join sep l'
  end.

(** [s.split(sep)] for a one-character separator. *)
Fixpoint split (sep : N) (s : pystr) : list pystr :=
  match s with
  | [] => [[]]
  | c :: s' =>
      if c =? sep then [] :: split sep s'
      else match split sep s' with
           | x :: l => (c :: x) :: l
           | [] => [[c]]
           end
  end.

(** [s.rfind(c)]: the last index of [c] in [s], or -1. *)
Fixpoint rfind_from (c : N) (s : pystr) (i : Z) (acc : Z) : Z :=
  match s with
  | [] => acc
  | d :: s' => rfind_from c s' (i + 1)%Z (if d =? c then i else acc)
  end.

Definition rfind (c : N) (s : pystr) : Z := rfind_from c s 0%Z (-1)%Z.

(** ** pathlib on POSIX *)

Definition slash : N := 47.
Definition dot : N := 46.

Record Path := { root : pystr; parts : list pystr }.

(** posixpath.splitroot: no leading slash, exactly two, or one (three or
    more count as one). *)
Definition splitroot (p : pystr) : pystr * pystr :=
  match p with
  | a :: rest1 =>
      if a =? slash then
        match rest1 with
        | b :: rest2 =>
            if b =? slash then
              match rest2 with
              | c :: _ => if c =? slash then ([slash], rest1)
                          else ([slash; slash], rest2)
              | [] => ([slash; slash], rest2)
              end
            else ([slash], rest1)
        | [] => ([slash], rest1)
        end
      else ([], p)
  | [] => ([], p)
  end.

(** [Path(p)]: empty components and single dots are dropped. *)
Definition Path_of (p : pystr) : Path :=
  let '(r, rel) := splitroot p in
  {| root := r;
     parts := List.filter (fun x => truthy x && negb (str_eqb x [dot]))
                          (split slash rel) |}.

(** [str(path)] *)
Definition Path_str (p : Path) : pystr :=
  match root p ++ join [slash] (parts p) with
  | [] => [dot]
  | s => s
  end.

(** posixpath.join for two segments. *)
Definition posix_join (a b : pystr) : pystr :=
  if startswith b [slash] then b
  else if negb (truthy a) || endswith a [slash] then a ++ b
  else a ++ [slash] ++ b.

(** [path / segment] *)
Definition Path_div (p : Path) (seg : pystr) : Path :=
  Path_of (posix_join (Path_str p) seg).

(** [path.name] *)
Definition Path_name (p : Path) : pystr := List.last (parts p) [].

(** [path.suffix] *)
Definition Path_suffix (p : Path) : pystr :=
  let name := Path_name p in
  let i := rfind dot name in
  if ((0 <? i) && (i <? Z.of_nat (length name) - 1))%Z
  then skipn (Z.to_nat i) name else [].

(** [path.stem] *)
Definition Path_stem (p : Path) : pystr :=
  let name := Path_name p in
  let i := rfind dot name in
  if ((0 <? i) && (i <? Z.of_nat (length name) - 1))%Z
  then firstn (Z.to_nat i) name else name.

(** [str(n)] for a non-negative integer. *)
Definition str_of_int (n : N) : pystr :=
  py (NilZero.string_of_uint (N.to_uint n)).

(** ** Exceptions, files, external calls *)

Inductive exn_class :=
| ValueError | FileNotFoundError | TypeError | OtherException.

(** An exception with the text [str(e)] gives. *)
Record exn := { exn_cls : exn_class; exn_msg : pystr }.

(** What a file holds, as far as the libraries read it: a Word package
    with the text of its paragraphs, a package of another kind (a .docm,
    a template, a spreadsheet) with the content type of its main part, a
    PDF with its text blocks, or other bytes that are no zip archive. *)
Inductive FileContent :=
| Docx (paragraphs : list pystr)
| OtherPackage (content_type : pystr)
| PdfFile (blocks : list pystr)
| Blob (data : list N).

(** How a call that writes a file ends. *)
Inductive IOOutcome :=
| IODone                               (* returns, the file is written *)
| IOSilent                             (* returns, no file appears *)
| IOFail (e : exn) (partial : bool).   (* raises; may leave a truncated file *)

Inductive Event :=
| EvAnswer
| EvReply (text : pystr)
| EvMkdir (path : pystr)
| EvGetFile (file_id : pystr)
| EvDownload (file_id path : pystr)
| EvSendDocument (chat_id : N) (filename caption : pystr)
                 (content : FileContent)
| EvRemove (path : pystr)
| EvLogError (msg : pystr).

(** The outcome of every call that leaves the program. *)
Record World := {
  w_cwd : pystr;                            (* os.getcwd() *)
  w_answer : option exn;                    (* query.answer() *)
  w_reply : pystr -> option exn;            (* message.reply_text(text) *)
  w_mkdir : pystr -> option exn;            (* Path.mkdir(exist_ok=True) *)
  w_get_file : pystr -> option exn;         (* bot.get_file(file_id) *)
  w_download : pystr -> IOOutcome;          (* file.download_to_drive(path) *)
  w_remote : pystr -> FileContent;          (* what file_id holds *)
  w_fpdf_output : pystr -> IOOutcome;       (* FPDF.output(path) *)
  w_pdf2docx : FileContent -> IOOutcome;    (* Converter(...).convert(...) *)
  w_pdf2docx_result : FileContent -> FileContent;
  w_send_document : option exn;             (* bot.send_document(...) *)
  w_remove : pystr -> option exn;           (* os.remove(path) *)
  w_getsize : FileContent -> N              (* os.path.getsize of a file *)
}.

Record State := {
  user_data : gmap (list N) (list N);       (* context.user_data *)
  fs : gmap (list N) FileContent;           (* files, by resolved path *)
  download_path : option Path;              (* locals of handle_document *)
  output_path : option (list N);
  trace : list Event
}.

(** ** The monad of handlers: state, and exceptions that keep the state *)

Inductive Result (A : Type) :=
| Ret (a : A)
| Raise (e : exn).
Arguments Ret {A} a.
Arguments Raise {A} e.

Definition M (A : Type) : Type := State -> Result A * State.

Definition ret {A} (a : A) : M A := fun s => (Ret a, s).

Definition raise {A} (e : exn) : M A := fun s => (Raise e, s).

Definition bind {A B} (m : M A) (k : A -> M B) : M B :=
  fun s => match m s with
           | (Ret a, s') => k a s'
           | (Raise e, s') => (Raise e, s')
           end.

#[export] Instance M_ret : MRet M := @ret.
#[export] Instance M_bind : MBind M := fun A B k m => bind m k.

(** [try: body except Exception as e: handler(e)] *)
Definition try_except {A} (body : M A) (handler : exn -> M A) : M A :=
  fun s => match body s with
           | (Ret a, s') => (Ret a, s')
           | (Raise e, s') => handler e s'
           end.

(** [try: body finally: fin].  An exception of [fin] replaces the
    outcome of [body]. *)
Definition try_finally {A} (body : M A) (fin : M unit) : M A :=
  fun s => match body s with
           | (r, s') => match fin s' with
                        | (Ret _, s'') => (r, s'')
                        | (Raise e, s'') => (Raise e, s'')
                        end
           end.

Definition get_state : M State := fun s => (Ret s, s).

Definition emit (e : Event) : M unit :=
  fun s => (Ret tt, {| user_data := user_data s; fs := fs s;
                       download_path := download_path s;
                       output_path := output_path s;
                       trace := trace s ++ [e] |}).

Definition set_fs (f : gmap (list N) FileContent) : M unit :=
  fun s => (Ret tt, {| user_data := user_data s; fs := f;
                       download_path := download_path s;
                       output_path := output_path s;
                       trace := trace s |}).

Definition set_user_data (d : gmap (list N) (list N)) : M unit :=
  fun s => (Ret tt, {| user_data := d; fs := fs s;
                       download_path := download_path s;
                       output_path := output_path s;
                       trace := trace s |}).

Definition set_download_path (p : option Path) : M unit :=
  fun s => (Ret tt, {| user_data := user_data s; fs := fs s;
                       download_path := p;
                       output_path := output_path s;
                       trace := trace s |}).

Definition set_output_path (p : option (list N)) : M unit :=
  fun s => (Ret tt, {| user_data := user_data s; fs := fs s;
                       download_path := download_path s;
                       output_path := p;
                       trace := trace s |}).

(** A call whose only outcome is to return or to raise. *)
Definition external (e : Event) (outcome : option exn) : M unit :=
  emit e;;
  match outcome with
  | None => ret tt
  | Some x => raise x
  end.

Section Program.

Variable w : World.

(** The file a path string names: relative paths start at the working
    directory. *)
Definition resolve (p : pystr) : pystr :=
  Path_str (Path_of (posix_join (w_cwd w) p)).

(** [os.path.exists(p)] *)
Definition os_path_exists (p : pystr) : M bool :=
  s ← get_state;
  ret (bool_decide (is_Some (fs s !! resolve p))).

(** [os.path.getsize(p)] *)
Definition os_path_getsize (p : pystr) : M N :=
  s ← get_state;
  match fs s !! resolve p with
  | Some c => ret (w_getsize w c)
  | None => raise {| exn_cls := FileNotFoundError;
                     exn_msg := py "No such file or directory: " ++ p |}
  end.

(** [open(p, 'rb')], giving what is read from it. *)
Definition open_rb (p : pystr) : M FileContent :=
  s ← get_state;
  match fs s !! resolve p with
  | Some c => ret c
  | None => raise {| exn_cls := FileNotFoundError;
                     exn_msg := py "No such file or directory: " ++ p |}
  end.

(** [os.remove(p)] *)
Definition os_remove (p : pystr) : M unit :=
  emit (EvRemove p);;
  match w_remove w p with
  | None => s ← get_state; set_fs (delete (resolve p) (fs s))
  | Some e => raise e
  end.

(** A library call that writes [content] to [p]. *)
Definition write_file (outcome : IOOutcome) (p : pystr)
    (content : FileContent) : M unit :=
  s ← get_state;
  match outcome with
  | IODone => set_fs (<[resolve p := content]> (fs s))
  | IOSilent => ret tt
  | IOFail e partial =>
      (if partial then set_fs (<[resolve p := Blob []]> (fs s)) else ret tt);;
      raise e
  end.

Definition reply_text (text : pystr) : M unit :=
  external (EvReply text) (w_reply w text).

Definition logger_error (msg : pystr) : M unit := emit (EvLogError msg).

(** ** file_converter.py *)

(** The part of an [FPDF] object the conversion touches. *)
Record FPDF := {
  fpdf_margin : N;
  fpdf_pages : nat;
  fpdf_font : option (list N * N);
  fpdf_cells : list (list N)
}.

Definition FPDF_new : FPDF :=
  {| fpdf_margin := 20; fpdf_pages := 0; fpdf_font := None; fpdf_cells := [] |}.

Definition set_auto_page_break (pdf : FPDF) (margin : N) : FPDF :=
  {| fpdf_margin := margin; fpdf_pages := fpdf_pages pdf;
     fpdf_font := fpdf_font pdf; fpdf_cells := fpdf_cells pdf |}.

Definition add_page (pdf : FPDF) : FPDF :=
  {| fpdf_margin := fpdf_margin pdf; fpdf_pages := S (fpdf_pages pdf);
     fpdf_font := fpdf_font pdf; fpdf_cells := fpdf_cells pdf |}.

Definition set_font (pdf : FPDF) (family : pystr) (size : N) : FPDF :=
  {| fpdf_margin := fpdf_margin pdf; fpdf_pages := fpdf_pages pdf;
     fpdf_font := Some (family, size); fpdf_cells := fpdf_cells pdf |}.

(** [pdf.multi_cell(w=0, h=10, txt=txt)]: one more text block. *)
Definition multi_cell (pdf : FPDF) (txt : pystr) : FPDF :=
  {| fpdf_margin := fpdf_margin pdf; fpdf_pages := fpdf_pages pdf;
     fpdf_font := fpdf_font pdf; fpdf_cells := fpdf_cells pdf ++ [txt] |}.

(** [pdf.output(path)] *)
Definition FPDF_output (pdf : FPDF) (path : pystr) : M unit :=
  write_file (w_fpdf_output w path) path (PdfFile (fpdf_cells pdf)).

(** [docx.Document(path).paragraphs], as the texts of the paragraphs.
    python-docx raises [ValueError] for a package whose main part is not
    a Word document, and its PackageNotFoundError, with the path quoted
    in the text, for a file that is no zip archive or is missing. *)
Definition docx_Document (path : pystr) : M (list pystr) :=
  s ← get_state;
  match fs s !! resolve path with
  | Some (Docx ps) => ret ps
  | Some (OtherPackage content_type) =>
      raise {| exn_cls := ValueError;
               exn_msg := py "file '" ++ path
                          ++ py "' is not a Word file, content type is '"
                          ++ content_type ++ py "'" |}
  | _ => raise {| exn_cls := OtherException;
                  exn_msg := py "Package not found at '" ++ path ++ py "'" |}
  end.

(** [cv = Converter(src); cv.convert(dst, start=0, end=None); cv.close()] *)
Definition pdf2docx_convert (src dst : pystr) : M unit :=
  c ← open_rb src;
  write_file (w_pdf2docx w c) dst (w_pdf2docx_result w c).

Record FileConverter := { temp_dir : Path }.

(** [FileConverter.__init__] *)
Definition FileConverter_init : M FileConverter :=
  let temp_dir := Path_div (Path_of (w_cwd w)) (py "temp") in
  try_except
    (external (EvMkdir (Path_str temp_dir)) (w_mkdir w (Path_str temp_dir));;
     ret {| temp_dir := temp_dir |})
    (fun e =>
       logger_error (py "Failed to create temp directory: " ++ exn_msg e);;
       raise e).

(** The loop body of [word_to_pdf]. *)
Definition process_paragraph (pdf : FPDF) (paragraph : pystr) : FPDF :=
  if truthy (strip paragraph) then
    let cleaned_text := List.filter (fun char => char <? 128) paragraph in
    multi_cell pdf cleaned_text
  else pdf.

(** The [except Exception] clause both converters end with. *)
Definition log_and_reraise (what path : pystr) (e : exn) : M pystr :=
  logger_error (what ++ exn_msg e);;
  ex ← os_path_exists path;
  (if ex : bool then
     size ← os_path_getsize path;
     logger_error (py "Input file size: " ++ str_of_int size ++ py " bytes")
   else ret tt);;
  raise e.

Definition word_to_pdf (self : FileConverter) (word_file_path : pystr)
  : M pystr :=
  try_except
    (let file_ext := lower (Path_suffix (Path_of word_file_path)) in
     if negb (str_in file_ext [py ".doc"; py ".docx"]) then
       raise {| exn_cls := ValueError;
                exn_msg := py "Invalid file extension: " ++ file_ext
                           ++ py ". Expected .doc or .docx" |}
     else
       ex ← os_path_exists word_file_path;
       if negb ex then
         raise {| exn_cls := FileNotFoundError;
                  exn_msg := py "Input file not found: " ++ word_file_path |}
       else
         file_size ← os_path_getsize word_file_path;
         let pdf := add_page (set_auto_page_break FPDF_new 15) in
         paragraphs ← docx_Document word_file_path;
         let pdf := set_font pdf (py "Helvetica") 12 in
         let pdf := fold_left process_paragraph paragraphs pdf in
         let output_path :=
           Path_str (Path_div (temp_dir self)
                       (Path_stem (Path_of word_file_path) ++ py ".pdf")) in
         FPDF_output pdf output_path;;
         ex ← os_path_exists output_path;
         if negb ex then
           raise {| exn_cls := FileNotFoundError;
                    exn_msg := py "Output file not found at " ++ output_path |}
         else ret output_path)
    (log_and_reraise (py "Error converting Word to PDF: ") word_file_path).

Definition pdf_to_word (self : FileConverter) (pdf_file_path : pystr)
  : M pystr :=
  try_except
    (let file_ext := lower (Path_suffix (Path_of pdf_file_path)) in
     if negb (str_eqb file_ext (py ".pdf")) then
       raise {| exn_cls := ValueError;
                exn_msg := py "Invalid file extension: " ++ file_ext
                           ++ py ". Expected .pdf" |}
     else
       ex ← os_path_exists pdf_file_path;
       if negb ex then
         raise {| exn_cls := FileNotFoundError;
                  exn_msg := py "Input file not found: " ++ pdf_file_path |}
       else
         file_size ← os_path_getsize pdf_file_path;
         let output_path :=
           Path_str (Path_div (temp_dir self)
                       (Path_stem (Path_of pdf_file_path) ++ py ".docx")) in
         pdf2docx_convert pdf_file_path output_path;;
         ex ← os_path_exists output_path;
         if negb ex then
           raise {| exn_cls := FileNotFoundError;
                    exn_msg := py "Conversion completed but output file not found at "
                               ++ output_path |}
         else ret output_path)
    (log_and_reraise (py "Error converting PDF to Word: ") pdf_file_path).

Definition cleanup_temp_files (self : FileConverter) (file_path : pystr)
  : M unit :=
  try_except
    (ex ← os_path_exists file_path;
     if ex : bool then os_remove file_path else ret tt)
    (fun e =>
       logger_error (py "Error cleaning up file " ++ file_path ++ py ": "
                     ++ exn_msg e)).

(** ** handlers.py *)

(** [update.message.document] of Telegram. *)
Record TgDocument := {
  file_id : pystr;
  file_name : option pystr;
  file_size : option N
}.

Record Update := {
  effective_chat_id : N;
  message_document : option TgDocument
}.

(** The module-level [file_converter = FileConverter()]. *)
Definition file_converter : FileConverter :=
  {| temp_dir := Path_div (Path_of (w_cwd w)) (py "temp") |}.

Definition cross : N := 10060.        (* U+274C *)
Definition outbox : N := 128228.      (* U+1F4E4 *)
Definition check_mark : N := 9989.    (* U+2705 *)
Definition newline : N := 10.

Definition KEY : pystr := py "conversion_type".
Definition WORD_TO_PDF : pystr := py "word_to_pdf".
Definition PDF_TO_WORD : pystr := py "pdf_to_word".

Definition PROMPT_WORD : pystr :=
  outbox :: py " Please send me the Word document (.doc or .docx) you want to convert to PDF.".
Definition PROMPT_PDF : pystr :=
  outbox :: py " Please send me the PDF file you want to convert to Word format.".
Definition MSG_NO_DOCUMENT : pystr :=
  cross :: py " Please send a document file.".
Definition MSG_SELECT_FIRST : pystr :=
  cross :: py " Please use /start first to select a conversion type.".
Definition MSG_NO_NAME : pystr :=
  cross :: py " The file must have a valid name with the correct extension (.doc, .docx, or .pdf)".
Definition MSG_NOT_WORD : pystr :=
  cross :: py " For Word to PDF conversion, please send a valid Word document."
  ++ [newline] ++ py "Supported formats: .doc or .docx".
Definition MSG_NOT_PDF : pystr :=
  cross :: py " For PDF to Word conversion, please send a valid PDF file."
  ++ [newline] ++ py "Supported format: .pdf".
Definition MSG_TOO_LARGE : pystr :=
  cross :: py " File is too large. Maximum file size is 20MB.".
Definition MSG_CONVERTING : pystr :=
  9881 :: 65039 :: py " Converting your file... Please wait.".
Definition CAPTION_PDF : pystr :=
  check_mark :: py " Here's your converted PDF file!".
Definition CAPTION_WORD : pystr :=
  check_mark :: py " Here's your converted Word document!".
Definition MSG_NOT_PROCESSED : pystr :=
  cross :: py " Error: The file could not be processed. Please try uploading again.".
Definition MSG_VALUE_ERROR (e : exn) : pystr :=
  cross :: py " Error: " ++ exn_msg e ++ [newline]
  ++ py "Please make sure you're sending the correct file type for the selected conversion.".
Definition MSG_GENERIC : pystr :=
  cross :: py " Sorry, there was an error processing your file. Please try again.".

Definition button_callback (query_data : option pystr) : M unit :=
  external EvAnswer (w_answer w);;
  if bool_decide (query_data = Some WORD_TO_PDF) then
    reply_text PROMPT_WORD;;
    s ← get_state;
    set_user_data (<[KEY := WORD_TO_PDF]> (user_data s))
  else if bool_decide (query_data = Some PDF_TO_WORD) then
    reply_text PROMPT_PDF;;
    s ← get_state;
    set_user_data (<[KEY := PDF_TO_WORD]> (user_data s))
  else ret tt.

Definition max_size : N := 20 * 1024 * 1024.

(** The body of the [try] of [handle_document]. *)
Definition transfer_body (chat_id : N) (conversion_type : pystr)
    (fid file_name : pystr) : M unit :=
  let temp_dir := Path_of (py "temp") in
  external (EvMkdir (Path_str temp_dir)) (w_mkdir w (Path_str temp_dir));;
  external (EvGetFile fid) (w_get_file w fid);;
  let download_path := Path_div temp_dir file_name in
  set_download_path (Some download_path);;
  emit (EvDownload fid (Path_str download_path));;
  write_file (w_download w fid) (Path_str download_path) (w_remote w fid);;
  ex ← os_path_exists (Path_str download_path);
  if negb ex then
    raise {| exn_cls := FileNotFoundError;
             exn_msg := py "Downloaded file not found at "
                        ++ Path_str download_path |}
  else
    downloaded_size ← os_path_getsize (Path_str download_path);
    reply_text MSG_CONVERTING;;
    if str_eqb conversion_type WORD_TO_PDF then
      out ← word_to_pdf file_converter (Path_str download_path);
      set_output_path (Some out);;
      let output_name := Path_name (Path_of out) in
      output_size ← os_path_getsize out;
      f ← open_rb out;
      external (EvSendDocument chat_id output_name CAPTION_PDF f)
               (w_send_document w)
    else
      out ← pdf_to_word file_converter (Path_str download_path);
      set_output_path (Some out);;
      let output_name := Path_name (Path_of out) in
      output_size ← os_path_getsize out;
      f ← open_rb out;
      external (EvSendDocument chat_id output_name CAPTION_WORD f)
               (w_send_document w).

(** The three [except] clauses of [handle_document]. *)
Definition transfer_except (e : exn) : M unit :=
  match exn_cls e with
  | FileNotFoundError =>
      logger_error (py "File not found error: " ++ exn_msg e);;
      reply_text MSG_NOT_PROCESSED
  | ValueError =>
      logger_error (py "Validation error: " ++ exn_msg e);;
      reply_text (MSG_VALUE_ERROR e)
  | _ =>
      logger_error (py "Error processing document: " ++ exn_msg e);;
      reply_text MSG_GENERIC
  end.

(** The [finally] clause of [handle_document]. *)
Definition transfer_finally : M unit :=
  s ← get_state;
  match download_path s with
  | Some p =>
      ex ← os_path_exists (Path_str p);
      if ex : bool then cleanup_temp_files file_converter (Path_str p)
      else ret tt
  | None => ret tt
  end;;
  match output_path s with
  | Some out =>
      if truthy out then
        ex ← os_path_exists out;
        if ex : bool then cleanup_temp_files file_converter out else ret tt
      else ret tt
  | None => ret tt
  end.

(** Lines 128 to 202: the transfer job. *)
Definition transfer_job (chat_id : N) (conversion_type : pystr)
    (fid file_name : pystr) : M unit :=
  set_download_path None;;
  set_output_path None;;
  try_finally
    (try_except (transfer_body chat_id conversion_type fid file_name)
                transfer_except)
    transfer_finally.

Definition handle_document (update : Update) : M unit :=
  match message_document update with
  | None => reply_text MSG_NO_DOCUMENT
  | Some document =>
      s ← get_state;
      let selected := user_data s !! KEY in
      if negb (truthy_opt selected) then reply_text MSG_SELECT_FIRST
      else
        let conversion_type := default [] selected in
        if negb (truthy_opt (file_name document)) then reply_text MSG_NO_NAME
        else
          let name := default [] (file_name document) in
          let checked_size :=
            match file_size document with
            | None =>
                raise {| exn_cls := TypeError;
                         exn_msg := py "'>' not supported between instances of 'NoneType' and 'int'" |}
            | Some size =>
                if max_size <? size then reply_text MSG_TOO_LARGE
                else transfer_job (effective_chat_id update) conversion_type
                       (file_id document) name
            end in
          if str_eqb conversion_type WORD_TO_PDF then
            if negb (endswith_any (lower name) [py ".doc"; py ".docx"])
            then reply_text MSG_NOT_WORD
            else checked_size
          else if str_eqb conversion_type PDF_TO_WORD then
            if negb (endswith (lower name) (py ".pdf"))
            then reply_text MSG_NOT_PDF
            else checked_size
          else checked_size
  end.

End Program.

(** ** What the theorems speak about *)

(** The state a computation ends in, and the events it added. *)
Definition final {A} (m : M A) (s : State) : State := (m s).2.

Definition outcome {A} (m : M A) (s : State) : Result A := (m s).1.

Definition events_of {A} (m : M A) (s : State) : list Event :=
  skipn (length (trace s)) (trace (final m s)).

(** A download is attempted when the bot asks Telegram for the file or
    starts writing it to disk. *)
Definition is_download (e : Event) : bool :=
  match e with
  | EvGetFile _ | EvDownload _ _ => true
  | _ => false
  end.

Definition download_attempted (evs : list Event) : bool :=
  existsb is_download evs.

(** The paths handed to [os.remove], in order. *)
Fixpoint removed_paths (evs : list Event) : list pystr :=
  match evs with
  | EvRemove p :: evs' => p :: removed_paths evs'
  | _ :: evs' => removed_paths evs'
  | [] => []
  end.

(** The 7-bit printable range, as the specification words it: the code
    points from space (32) to tilde (126). *)
Definition printable7 (c : N) : bool := (32 <=? c) && (c <=? 126).

(** A paragraph that is neither empty nor whitespace only. *)
Definition non_blank (paragraph : pystr) : bool :=
  existsb (fun c => negb (isspace c)) paragraph.

(** The extension test of the dispatcher for a selection. *)
Definition dispatcher_ext_ok (conversion_type name : pystr) : bool :=
  if str_eqb conversion_type WORD_TO_PDF
  then endswith_any (lower name) [py ".doc"; py ".docx"]
  else if str_eqb conversion_type PDF_TO_WORD
  then endswith (lower name) (py ".pdf")
  else true.

Definition mismatch_message (conversion_type : pystr) : pystr :=
  if str_eqb conversion_type WORD_TO_PDF then MSG_NOT_WORD else MSG_NOT_PDF.

(** The extension tests of the two converters. *)
Definition word_ext_ok (path : pystr) : bool :=
  str_in (lower (Path_suffix (Path_of path))) [py ".doc"; py ".docx"].

Definition pdf_ext_ok (path : pystr) : bool :=
  str_eqb (lower (Path_suffix (Path_of path))) (py ".pdf").

(** Where a job of [handle_document] puts its two files. *)
Definition job_download_path (name : pystr) : pystr :=
  Path_str (Path_div (Path_of (py "temp")) name).

Definition job_output_path (w : World) (conversion_type name : pystr) : pystr :=
  Path_str (Path_div (temp_dir (file_converter w))
    (Path_stem (Path_of (job_download_path name))
     ++ (if str_eqb conversion_type WORD_TO_PDF then py ".pdf" else py ".docx"))).

(** Relations between the state before and after a computation. *)
Definition same_session (s s' : State) : Prop := user_data s' = user_data s.

Definition same_locals (s s' : State) : Prop :=
  download_path s' = download_path s /\ output_path s' = output_path s.

Definition same_files (s s' : State) : Prop :=
  fs s' = fs s /\ same_locals s s'.

Definition extends (s s' : State) : Prop :=
  exists evs, trace s' = trace s ++ evs.

Definition extends_without_remove (s s' : State) : Prop :=
  exists evs, trace s' = trace s ++ evs /\ removed_paths evs = [].

(** Every run of [m] adds [e] to the trace before anything else. *)
Definition starts_with {A} (e : Event) (m : M A) : Prop :=
  forall s, exists evs, trace (final m s) = trace s ++ e :: evs.

(** What a transfer job may have left behind when its [finally] clause
    starts: nothing, the download, or the download and the output. *)
Definition job_post (w : World) (s0 : State) (name out : pystr) (s1 : State)
  : Prop :=
  let download := Path_div (Path_of (py "temp")) name in
  let rdl := resolve w (Path_str download) in
  (download_path s1 = None /\ output_path s1 = None /\ fs s1 = fs s0)
  \/ (download_path s1 = Some download /\ output_path s1 = None
      /\ forall k, k <> rdl -> fs s1 !! k = fs s0 !! k)
  \/ (download_path s1 = Some download /\ output_path s1 = Some out
      /\ forall k, k <> rdl -> k <> resolve w out -> fs s1 !! k = fs s0 !! k).

(** A relation between the state before and the state after that every
    step of a computation maintains. *)
Definition keeps (R : State -> State -> Prop) {A} (m : M A) : Prop :=
  forall s, R s (final m s).

(** Weakest precondition: the outcome and final state of [m] from [s]
    satisfy [Q]. *)
Definition wp {A} (m : M A) (Q : Result A -> State -> Prop) (s : State) : Prop :=
  Q (outcome m s) (final m s).

(** ** A deployment to run scenarios in *)

(** The bot runs in /srv/bot and every external call succeeds, except
    that [os.remove] ends as [remove] says; [remote] is what Telegram
    serves for a file id. *)
Definition deployment (remote : FileContent) (remove : option exn) : World :=
  {| w_cwd := py "/srv/bot";
     w_answer := None;
     w_reply := fun _ => None;
     w_mkdir := fun _ => None;
     w_get_file := fun _ => None;
     w_download := fun _ => IODone;
     w_remote := fun _ => remote;
     w_fpdf_output := fun _ => IODone;
     w_pdf2docx := fun _ => IODone;
     w_pdf2docx_result := fun _ => Docx [];
     w_send_document := None;
     w_remove := fun _ => remove;
     w_getsize := fun _ => 0 |}.

Definition permission_denied : exn :=
  {| exn_cls := OtherException; exn_msg := py "Permission denied" |}.

(** The document test_conversion.py creates. *)
Definition sample_paragraphs : list pystr :=
  [py "This is a test document.";
   py "It contains multiple paragraphs.";
   py "Used for testing file conversion."].

Definition fresh_state : State :=
  {| user_data := ∅; fs := ∅; download_path := None; output_path := None;
     trace := [] |}.

Definition with_file (path : pystr) (c : FileContent) (s : State) : State :=
  {| user_data := user_data s; fs := <[path := c]> (fs s);
     download_path := download_path s; output_path := output_path s;
     trace := trace s |}.

Definition with_selection (conversion_type : pystr) (s : State) : State :=
  {| user_data := <[KEY := conversion_type]> (user_data s); fs := fs s;
     download_path := download_path s; output_path := output_path s;
     trace := trace s |}.

Definition upload (name : pystr) (size : N) : Update :=
  {| effective_chat_id := 1;
     message_document :=
       Some {| file_id := py "file-1"; file_name := Some name;
               file_size := Some size |} |}.


(** The same deployment with another outcome of the download, or of the
    upload of the result. *)
Definition with_download (w : World) (o : IOOutcome) : World :=
  {| w_cwd := w_cwd w; w_answer := w_answer w; w_reply := w_reply w;
     w_mkdir := w_mkdir w; w_get_file := w_get_file w;
     w_download := fun _ => o;
     w_remote := w_remote w; w_fpdf_output := w_fpdf_output w;
     w_pdf2docx := w_pdf2docx w; w_pdf2docx_result := w_pdf2docx_result w;
     w_send_document := w_send_document w; w_remove := w_remove w;
     w_getsize := w_getsize w |}.

Definition with_send_document (w : World) (o : option exn) : World :=
  {| w_cwd := w_cwd w; w_answer := w_answer w; w_reply := w_reply w;
     w_mkdir := w_mkdir w; w_get_file := w_get_file w;
     w_download := w_download w;
     w_remote := w_remote w; w_fpdf_output := w_fpdf_output w;
     w_pdf2docx := w_pdf2docx w; w_pdf2docx_result := w_pdf2docx_result w;
     w_send_document := o; w_remove := w_remove w;
     w_getsize := w_getsize w |}.

Definition network_error : exn :=
  {| exn_cls := OtherException; exn_msg := py "Timed out" |}.

Definition upload_without_size (name : pystr) : Update :=
  {| effective_chat_id := 1;
     message_document :=
       Some {| file_id := py "file-1"; file_name := Some name;
               file_size := None |} |}.

(** The update Telegram delivers for a document with a name and a size. *)
Definition document_update (chat : N) (fid name : pystr) (size : N) : Update :=
  {| effective_chat_id := chat;
     message_document :=
       Some {| file_id := fid; file_name := Some name;
               file_size := Some size |} |}.

(** The output path of a converter: <temp_dir>/<stem of the input><ext>. *)
Definition converter_output (self : FileConverter) (path ext : pystr) : pystr :=
  Path_str (Path_div (temp_dir self) (Path_stem (Path_of path) ++ ext)).

(** Literals and string functions stay folded during symbolic execution. *)
#[local] Opaque py.
#[local] Arguments lower : simpl never.
#[local] Arguments endswith : simpl never.
#[local] Arguments endswith_any : simpl never.
#[local] Arguments str_eqb : simpl never.
#[local] Arguments str_in : simpl never.
#[local] Arguments Path_of : simpl never.
#[local] Arguments Path_str : simpl never.
#[local] Arguments Path_div : simpl never.
#[local] Arguments Path_stem : simpl never.
#[local] Arguments Path_suffix : simpl never.
#[local] Arguments Path_name : simpl never.
#[local] Arguments resolve : simpl never.
#[local] Arguments lookup : simpl never.
#[local] Arguments insert : simpl never.
#[local] Arguments delete : simpl never.
#[local] Arguments strip : simpl never.
#[local] Arguments N.ltb : simpl never.

(** ** The monad's rules *)

Lemma wp_bind {A B} (m : M A) (k : A -> M B) Q s :
  wp m (fun r s' => match r with
                    | Ret a => wp (k a) Q s'
                    | Raise e => Q (Raise e) s'
                    end) s ->
  wp (m ≫= k) Q s.
Proof.
  unfold wp, outcome, final, mbind, M_bind, bind.
  destruct (m s) as [[a|e] s']; simpl; auto.
Qed.

Lemma wp_try_except {A} (body : M A) handler Q s :
  wp body (fun r s' => match r with
                       | Ret a => Q (Ret a) s'
                       | Raise e => wp (handler e) Q s'
                       end) s ->
  wp (try_except body handler) Q s.
Proof.
  unfold wp, outcome, final, try_except.
  destruct (body s) as [[a|e] s']; simpl; auto.
Qed.

Lemma wp_try_finally {A} (body : M A) fin Q s :
  wp body (fun r s' =>
    wp fin (fun r2 s'' => match r2 with
                          | Ret _ => Q r s''
                          | Raise e => Q (Raise e) s''
                          end) s') s ->
  wp (try_finally body fin) Q s.
Proof.
  unfold wp, outcome, final, try_finally.
  destruct (body s) as [r s']; simpl.
  destruct (fin s') as [[u|e] s'']; simpl; auto.
Qed.

Lemma wp_mono {A} (m : M A) (Q Q' : Result A -> State -> Prop) s :
  (forall r s', Q r s' -> Q' r s') -> wp m Q s -> wp m Q' s.
Proof. unfold wp; auto. Qed.

Section Keeps.

Variable R : State -> State -> Prop.
Hypothesis R_refl : forall s, R s s.
Hypothesis R_trans : forall s1 s2 s3, R s1 s2 -> R s2 s3 -> R s1 s3.

Lemma keeps_ret {A} (a : A) : keeps R (ret a).
Proof. intros s; apply R_refl. Qed.

Lemma keeps_raise {A} e : keeps R (@raise A e).
Proof. intros s; apply R_refl. Qed.

Lemma keeps_get_state : keeps R get_state.
Proof. intros s; apply R_refl. Qed.

Lemma keeps_bind {A B} (m : M A) (k : A -> M B) :
  keeps R m -> (forall a, keeps R (k a)) -> keeps R (m ≫= k).
Proof.
  intros Hm Hk s. specialize (Hm s).
  unfold final, mbind, M_bind, bind in *.
  destruct (m s) as [[a|e] s']; simpl in *; auto.
  eapply R_trans; [exact Hm | apply Hk].
Qed.

Lemma keeps_try_except {A} (body : M A) handler :
  keeps R body -> (forall e, keeps R (handler e)) ->
  keeps R (try_except body handler).
Proof.
  intros Hm Hk s. specialize (Hm s).
  unfold final, try_except in *.
  destruct (body s) as [[a|e] s']; simpl in *; auto.
  eapply R_trans; [exact Hm | apply Hk].
Qed.

Lemma keeps_try_finally {A} (body : M A) fin :
  keeps R body -> keeps R fin -> keeps R (try_finally body fin).
Proof.
  intros Hm Hf s. specialize (Hm s). specialize (Hf (body s).2).
  unfold final, try_finally in *.
  destruct (body s) as [r s']; simpl in *.
  destruct (fin s') as [[u|e] s'']; simpl in *; eapply R_trans; eauto.
Qed.

End Keeps.

(** One step of a proof that a computation maintains a relation: the
    rule of the construct at the head, side conditions by assumption. *)
Ltac keeps_step :=
  lazymatch goal with
  | |- keeps _ (ret _) => apply keeps_ret; assumption
  | |- keeps _ (raise _) => apply keeps_raise; assumption
  | |- keeps _ get_state => apply keeps_get_state; assumption
  | |- keeps _ (emit _) =>
      match goal with
      | H : _ |- _ => apply H; first [ assumption | congruence ]
      end
  | |- keeps _ (_ ≫= _) =>
      apply keeps_bind; [assumption.. | | intros ?]
  | |- keeps _ (try_except _ _) =>
      apply keeps_try_except; [assumption.. | | intros ?]
  | |- keeps _ (try_finally _ _) =>
      apply keeps_try_finally; [assumption.. | | ]
  | |- keeps _ (if ?b then _ else _) => destruct b
  | |- keeps _ (match ?x with _ => _ end) => destruct x
  end.

Ltac keeps_go := repeat (cbv zeta; first [ assumption | keeps_step ]).

(** *** Every function of the program maintains such a relation, as soon
    as the primitive state changes do. *)

Section KeepsProgram.

Variable R : State -> State -> Prop.
Hypothesis R_refl : forall s, R s s.
Hypothesis R_trans : forall s1 s2 s3, R s1 s2 -> R s2 s3 -> R s1 s3.
Hypothesis R_emit : forall e, (forall p, e <> EvRemove p) -> keeps R (emit e).

Variable w : World.

Lemma keeps_external e o :
  (forall p, e <> EvRemove p) -> keeps R (external e o).
Proof. intros He. unfold external. keeps_go. Qed.

Lemma keeps_reply_text text : keeps R (reply_text w text).
Proof. apply keeps_external; congruence. Qed.

Lemma keeps_logger_error msg : keeps R (logger_error msg).
Proof. unfold logger_error. keeps_go. Qed.

Lemma keeps_os_path_exists p : keeps R (os_path_exists w p).
Proof. unfold os_path_exists. keeps_go. Qed.

Lemma keeps_os_path_getsize p : keeps R (os_path_getsize w p).
Proof. unfold os_path_getsize. keeps_go. Qed.

Lemma keeps_open_rb p : keeps R (open_rb w p).
Proof. unfold open_rb. keeps_go. Qed.

Lemma keeps_docx_Document p : keeps R (docx_Document w p).
Proof. unfold docx_Document. keeps_go. Qed.

Lemma keeps_log_and_reraise what p e : keeps R (log_and_reraise w what p e).
Proof.
  unfold log_and_reraise.
  pose proof keeps_logger_error. pose proof keeps_os_path_exists.
  pose proof keeps_os_path_getsize.
  keeps_go; auto.
Qed.

Lemma keeps_transfer_except e : keeps R (transfer_except w e).
Proof.
  unfold transfer_except.
  pose proof keeps_logger_error. pose proof keeps_reply_text.
  keeps_go; auto.
Qed.

Hypothesis R_set_fs : forall f, keeps R (set_fs f).

Lemma keeps_write_file o p c : keeps R (write_file w o p c).
Proof. unfold write_file. keeps_go; auto. Qed.

Lemma keeps_word_to_pdf self p : keeps R (word_to_pdf w self p).
Proof.
  unfold word_to_pdf, FPDF_output.
  pose proof keeps_log_and_reraise. pose proof keeps_os_path_exists.
  pose proof keeps_os_path_getsize. pose proof keeps_docx_Document.
  pose proof keeps_write_file.
  keeps_go; auto.
Qed.

Lemma keeps_pdf_to_word self p : keeps R (pdf_to_word w self p).
Proof.
  unfold pdf_to_word, pdf2docx_convert.
  pose proof keeps_log_and_reraise. pose proof keeps_os_path_exists.
  pose proof keeps_os_path_getsize. pose proof keeps_open_rb.
  pose proof keeps_write_file.
  keeps_go; auto.
Qed.

Hypothesis R_set_download_path : forall p, keeps R (set_download_path p).
Hypothesis R_set_output_path : forall p, keeps R (set_output_path p).

Lemma keeps_transfer_body chat ct fid name :
  keeps R (transfer_body w chat ct fid name).
Proof.
  unfold transfer_body.
  pose proof keeps_word_to_pdf. pose proof keeps_pdf_to_word.
  pose proof keeps_os_path_exists. pose proof keeps_os_path_getsize.
  pose proof keeps_open_rb. pose proof keeps_write_file.
  pose proof keeps_reply_text.
  keeps_go; auto; apply keeps_external; congruence.
Qed.

Hypothesis R_remove : forall p, keeps R (emit (EvRemove p)).

Lemma keeps_cleanup_temp_files self p : keeps R (cleanup_temp_files w self p).
Proof.
  unfold cleanup_temp_files, os_remove.
  pose proof keeps_os_path_exists. pose proof keeps_logger_error.
  keeps_go; auto.
Qed.

Lemma keeps_transfer_finally : keeps R (transfer_finally w).
Proof.
  unfold transfer_finally.
  pose proof keeps_os_path_exists. pose proof keeps_cleanup_temp_files.
  keeps_go; auto.
Qed.

Lemma keeps_transfer_job chat ct fid name :
  keeps R (transfer_job w chat ct fid name).
Proof.
  unfold transfer_job.
  pose proof keeps_transfer_body. pose proof keeps_transfer_except.
  pose proof keeps_transfer_finally.
  keeps_go; auto.
Qed.

Lemma keeps_handle_document update : keeps R (handle_document w update).
Proof.
  unfold handle_document.
  pose proof keeps_reply_text. pose proof keeps_transfer_job.
  keeps_go; auto.
Qed.

End KeepsProgram.

(** ** The relations the program maintains *)

Lemma removed_paths_app evs1 evs2 :
  removed_paths (evs1 ++ evs2) = removed_paths evs1 ++ removed_paths evs2.
Proof.
  induction evs1 as [|e evs1 IH]; simpl; [done|].
  destruct e; simpl; rewrite ?IH; done.
Qed.

Lemma extends_trans s1 s2 s3 : extends s1 s2 -> extends s2 s3 -> extends s1 s3.
Proof.
  intros [a Ha] [b Hb]. exists (a ++ b). rewrite Hb, Ha, app_assoc. done.
Qed.

Lemma extends_without_remove_trans s1 s2 s3 :
  extends_without_remove s1 s2 -> extends_without_remove s2 s3 ->
  extends_without_remove s1 s3.
Proof.
  intros [a [Ha Ha']] [b [Hb Hb']]. exists (a ++ b). split.
  - rewrite Hb, Ha, app_assoc. done.
  - rewrite removed_paths_app, Ha', Hb'. done.
Qed.

Lemma events_of_extends {A} (m : M A) s evs :
  trace (final m s) = trace s ++ evs -> events_of m s = evs.
Proof. intros H. unfold events_of. rewrite H. apply drop_app_length. Qed.

Lemma handle_document_same_session w update : 
  keeps same_session (handle_document w update).
Proof.
  apply keeps_handle_document; unfold keeps, same_session; simpl; try done.
  intros s1 s2 s3 H1 H2. congruence.
Qed.

Lemma transfer_job_extends w chat ct fid name :
  keeps extends (transfer_job w chat ct fid name).
Proof.
  apply keeps_transfer_job; unfold keeps; simpl;
    try (intros; eexists; simpl; first [ done | symmetry; apply app_nil_r ]).
  apply extends_trans.
Qed.

(** ** Validation in the dispatcher *)

Lemma reply_text_final w text s :
  final (reply_text w text) s = final (emit (EvReply text)) s.
Proof.
  unfold final, reply_text, external, mbind, M_bind, bind. simpl.
  destruct (w_reply w text); done.
Qed.

Lemma str_eqb_refl a : str_eqb a a = true.
Proof. unfold str_eqb. apply bool_decide_eq_true. done. Qed.

Lemma tokens_differ : str_eqb PDF_TO_WORD WORD_TO_PDF = false.
Proof. reflexivity. Qed.

Lemma truthy_true name : name <> [] -> truthy name = true.
Proof. destruct name; done. Qed.

(** C3. A document that arrives while the session's selection is unset
    (missing or empty) is answered with the instruction to select a
    conversion first; that reply is the only thing the handler does: no
    download is attempted, no file is touched, the session is unchanged. *)
Theorem C3_document_without_selection
    (w : World) (update : Update) (doc : TgDocument) (s : State) :
  message_document update = Some doc ->
  truthy_opt (user_data s !! KEY) = false ->
  events_of (handle_document w update) s = [EvReply MSG_SELECT_FIRST]
  /\ download_attempted (events_of (handle_document w update) s) = false
  /\ fs (final (handle_document w update) s) = fs s
  /\ user_data (final (handle_document w update) s) = user_data s.
Proof.
  intros Hdoc Hsel.
  assert (Hrun : final (handle_document w update) s
                 = final (emit (EvReply MSG_SELECT_FIRST)) s).
  { rewrite <- (reply_text_final w). unfold final, handle_document.
    rewrite Hdoc. unfold mbind, M_bind, bind. simpl. rewrite Hsel. done. }
  assert (Hev : events_of (handle_document w update) s
                = [EvReply MSG_SELECT_FIRST]).
  { apply events_of_extends. rewrite Hrun. done. }
  rewrite Hev, Hrun. done.
Qed.

(** C4. With a selection pending, a document whose (non-empty) file name
    fails the extension test of that selection is answered with the
    extension-mismatch message of the selection and nothing else: no
    download is attempted, no file is touched, and the session, hence its
    selection, is left as it was. *)
Theorem C4_extension_mismatch
    (w : World) (update : Update) (doc : TgDocument) (ct name : pystr)
    (s : State) :
  message_document update = Some doc ->
  ct = WORD_TO_PDF \/ ct = PDF_TO_WORD ->
  user_data s !! KEY = Some ct ->
  file_name doc = Some name ->
  name <> [] ->
  dispatcher_ext_ok ct name = false ->
  events_of (handle_document w update) s = [EvReply (mismatch_message ct)]
  /\ download_attempted (events_of (handle_document w update) s) = false
  /\ fs (final (handle_document w update) s) = fs s
  /\ user_data (final (handle_document w update) s) = user_data s.
Proof.
  intros Hdoc Hct Hsel Hname Hne Hext.
  assert (Hrun : final (handle_document w update) s
                 = final (emit (EvReply (mismatch_message ct))) s).
  { rewrite <- (reply_text_final w). unfold final, handle_document.
    rewrite Hdoc. unfold mbind, M_bind, bind. simpl.
    rewrite Hsel, Hname. simpl. rewrite (truthy_true name Hne).
    unfold dispatcher_ext_ok, mismatch_message in *.
    destruct Hct as [-> | ->].
    - rewrite str_eqb_refl in *. rewrite Hext. done.
    - rewrite tokens_differ, str_eqb_refl in *. rewrite Hext. done. }
  assert (Hev : events_of (handle_document w update) s
                = [EvReply (mismatch_message ct)]).
  { apply events_of_extends. rewrite Hrun. done. }
  rewrite Hev, Hrun. done.
Qed.

(** C9. For a payload other than the two recognised tokens the callback
    handler only answers the query: the session is unchanged and no prompt
    is sent.  For a recognised token, a run that completes leaves the
    selection set to that token, whatever it was before. *)
Theorem C9_button_callback (w : World) (data : option pystr) (s : State) :
  (data <> Some WORD_TO_PDF -> data <> Some PDF_TO_WORD ->
     user_data (final (button_callback w data) s) = user_data s
     /\ events_of (button_callback w data) s = [EvAnswer])
  /\ (forall token, token = WORD_TO_PDF \/ token = PDF_TO_WORD ->
      data = Some token ->
      outcome (button_callback w data) s = Ret tt ->
      user_data (final (button_callback w data) s)
      = <[KEY := token]> (user_data s)).
Proof.
  split.
  - intros H1 H2.
    assert (Hrun : final (button_callback w data) s = final (emit EvAnswer) s).
    { unfold final, button_callback, external, mbind, M_bind, bind. simpl.
      rewrite !bool_decide_eq_false_2 by done.
      destruct (w_answer w); done. }
    split; [rewrite Hrun; done|].
    apply events_of_extends. rewrite Hrun. done.
  - intros token Htok -> .
    unfold outcome, final, button_callback, reply_text, external, mbind, M_bind, bind.
    simpl. destruct (w_answer w); simpl; [done|].
    destruct Htok as [-> | ->].
    + rewrite bool_decide_eq_true_2 by done. simpl.
      destruct (w_reply w PROMPT_WORD); simpl; done.
    + rewrite bool_decide_eq_false_2 by done.
      rewrite bool_decide_eq_true_2 by done. simpl.
      destruct (w_reply w PROMPT_PDF); simpl; done.
Qed.

(** C7. The document handler never changes the session: after any run,
    successful conversions included, [user_data] is what it was, so the
    next document is handled under the same selection. *)
Theorem C7_selection_survives (w : World) (update : Update) (s : State) :
  user_data (final (handle_document w update) s) = user_data s
  /\ user_data (final (handle_document w update) s) !! KEY = user_data s !! KEY.
Proof.
  pose proof (handle_document_same_session w update s) as H.
  unfold same_session in H. rewrite H. done.
Qed.

Lemma log_and_reraise_outcome w what p e s :
  outcome (log_and_reraise w what p e) s = Raise e
  /\ fs (final (log_and_reraise w what p e) s) = fs s.
Proof.
  unfold outcome, final, log_and_reraise, logger_error, os_path_exists,
    os_path_getsize, mbind, M_bind, bind.
  simpl. destruct (fs s !! resolve w p) eqn:Hp; simpl; rewrite ?Hp; simpl; done.
Qed.

(** C6. Each converter raises [ValueError] when the extension of the path
    is not one it expects, whether or not the file exists, and raises
    [FileNotFoundError] when the extension is right and the file is
    missing; in both cases no file is created or changed. *)
Theorem C6_validation_order
    (w : World) (self : FileConverter) (path : pystr) (s : State) :
  (word_ext_ok path = false ->
     exists e, outcome (word_to_pdf w self path) s = Raise e
               /\ exn_cls e = ValueError
               /\ fs (final (word_to_pdf w self path) s) = fs s)
  /\ (word_ext_ok path = true -> fs s !! resolve w path = None ->
     exists e, outcome (word_to_pdf w self path) s = Raise e
               /\ exn_cls e = FileNotFoundError
               /\ fs (final (word_to_pdf w self path) s) = fs s)
  /\ (pdf_ext_ok path = false ->
     exists e, outcome (pdf_to_word w self path) s = Raise e
               /\ exn_cls e = ValueError
               /\ fs (final (pdf_to_word w self path) s) = fs s)
  /\ (pdf_ext_ok path = true -> fs s !! resolve w path = None ->
     exists e, outcome (pdf_to_word w self path) s = Raise e
               /\ exn_cls e = FileNotFoundError
               /\ fs (final (pdf_to_word w self path) s) = fs s).
Proof.
  unfold word_ext_ok, pdf_ext_ok.
  repeat split.
  - intros Hext. eexists.
    unfold outcome, final, word_to_pdf, try_except. rewrite Hext. simpl.
    split; [apply log_and_reraise_outcome|].
    split; [done | apply log_and_reraise_outcome].
  - intros Hext Hmiss. eexists.
    unfold outcome, final, word_to_pdf, try_except, os_path_exists,
      mbind, M_bind, bind.
    rewrite Hext. simpl. rewrite Hmiss. simpl.
    split; [apply log_and_reraise_outcome|].
    split; [done | apply log_and_reraise_outcome].
  - intros Hext. eexists.
    unfold outcome, final, pdf_to_word, try_except. rewrite Hext. simpl.
    split; [apply log_and_reraise_outcome|].
    split; [done | apply log_and_reraise_outcome].
  - intros Hext Hmiss. eexists.
    unfold outcome, final, pdf_to_word, try_except, os_path_exists,
      mbind, M_bind, bind.
    rewrite Hext. simpl. rewrite Hmiss. simpl.
    split; [apply log_and_reraise_outcome|].
    split; [done | apply log_and_reraise_outcome].
Qed.

(** C8. [cleanup_temp_files] never raises.  On a path that does not exist
    it does nothing at all; on one that exists it calls [os.remove] once,
    and the file is gone when that succeeds, while a failure is logged as
    an error and the file system is left as it was. *)
Theorem C8_cleanup_best_effort
    (w : World) (self : FileConverter) (path : pystr) (s : State) :
  outcome (cleanup_temp_files w self path) s = Ret tt
  /\ (fs s !! resolve w path = None ->
      final (cleanup_temp_files w self path) s = s)
  /\ (is_Some (fs s !! resolve w path) ->
      match w_remove w path with
      | None =>
          events_of (cleanup_temp_files w self path) s = [EvRemove path]
          /\ fs (final (cleanup_temp_files w self path) s)
             = delete (resolve w path) (fs s)
      | Some e =>
          events_of (cleanup_temp_files w self path) s
          = [EvRemove path;
             EvLogError (py "Error cleaning up file " ++ path ++ py ": "
                         ++ exn_msg e)]
          /\ fs (final (cleanup_temp_files w self path) s) = fs s
      end).
Proof.
  unfold events_of, outcome, final, cleanup_temp_files, try_except, os_path_exists,
    os_remove, logger_error, mbind, M_bind, bind.
  simpl. destruct (fs s !! resolve w path) as [c|] eqn:Hc; simpl.
  - destruct (w_remove w path) as [e|]; simpl.
    + split; [done|]. split; [done|]. intros _. 
      rewrite <- app_assoc. rewrite drop_app_length. done.
    + split; [done|]. split; [done|]. intros _. 
      rewrite drop_app_length. done.
  - split; [done|]. split; [destruct s; done|]. intros [? ?]; done.
Qed.

(** ** The size limit *)

Lemma extends_refl s : extends s s.
Proof. exists []. symmetry. apply app_nil_r. Qed.

Lemma extends_emit e : keeps extends (emit e).
Proof. intros s. exists [e]. done. Qed.

Lemma extends_set_fs f : keeps extends (set_fs f).
Proof. intros s. exists []. simpl. symmetry. apply app_nil_r. Qed.

Lemma extends_set_download_path p : keeps extends (set_download_path p).
Proof. intros s. exists []. simpl. symmetry. apply app_nil_r. Qed.

Lemma extends_set_output_path p : keeps extends (set_output_path p).
Proof. intros s. exists []. simpl. symmetry. apply app_nil_r. Qed.

Lemma starts_bind {A B} e (m : M A) (k : A -> M B) :
  starts_with e m -> (forall a, keeps extends (k a)) -> starts_with e (m ≫= k).
Proof.
  intros Hm Hk s. destruct (Hm s) as [evs Hevs].
  unfold final, mbind, M_bind, bind in *.
  destruct (m s) as [[a|x] s'] eqn:Hms; simpl in *; [|eauto].
  destruct (Hk a s') as [evs' Hevs']. unfold final in Hevs'.
  exists (evs ++ evs'). rewrite Hevs', Hevs, <- app_assoc. done.
Qed.

Lemma starts_try_except {A} e (m : M A) h :
  starts_with e m -> (forall x, keeps extends (h x)) ->
  starts_with e (try_except m h).
Proof.
  intros Hm Hk s. destruct (Hm s) as [evs Hevs].
  unfold final, try_except in *.
  destruct (m s) as [[a|x] s'] eqn:Hms; simpl in *; [eauto|].
  destruct (Hk x s') as [evs' Hevs']. unfold final in Hevs'.
  exists (evs ++ evs'). rewrite Hevs', Hevs, <- app_assoc. done.
Qed.

Lemma starts_try_finally {A} e (m : M A) fin :
  starts_with e m -> keeps extends fin -> starts_with e (try_finally m fin).
Proof.
  intros Hm Hk s. destruct (Hm s) as [evs Hevs].
  destruct (Hk (m s).2) as [evs' Hevs'].
  unfold final, try_finally in *.
  destruct (m s) as [r s'] eqn:Hms; simpl in *.
  exists (evs ++ evs').
  destruct (fin s') as [[u|x] s'']; simpl in *;
    rewrite Hevs', Hevs, <- app_assoc; done.
Qed.

Lemma starts_external e o : starts_with e (external e o).
Proof.
  intros s. exists []. unfold final, external, mbind, M_bind, bind. simpl.
  destruct o; done.
Qed.

Lemma starts_after_set_download_path {A} e p (m : M A) :
  starts_with e m -> starts_with e (set_download_path p ≫= fun _ => m).
Proof. intros Hm s. apply (Hm (final (set_download_path p) s)). Qed.

Lemma starts_after_set_output_path {A} e p (m : M A) :
  starts_with e m -> starts_with e (set_output_path p ≫= fun _ => m).
Proof. intros Hm s. apply (Hm (final (set_output_path p) s)). Qed.

Create HintDb keeps.
#[local] Hint Resolve keeps_external keeps_reply_text keeps_logger_error
  keeps_os_path_exists keeps_os_path_getsize keeps_open_rb keeps_docx_Document
  keeps_log_and_reraise keeps_transfer_except keeps_write_file
  keeps_word_to_pdf keeps_pdf_to_word keeps_transfer_body
  keeps_cleanup_temp_files keeps_transfer_finally keeps_transfer_job
  keeps_handle_document : keeps.
#[local] Hint Resolve extends_refl extends_trans extends_emit extends_set_fs
  extends_set_download_path extends_set_output_path : keeps.

Lemma transfer_job_starts_with_mkdir w chat ct fid name :
  starts_with (EvMkdir (py "temp")) (transfer_job w chat ct fid name).
Proof.
  apply starts_after_set_download_path, starts_after_set_output_path.
  apply starts_try_finally; [|eauto with keeps].
  apply starts_try_except; [|eauto with keeps].
  unfold transfer_body.
  change (Path_str (Path_of (py "temp"))) with (py "temp").
  apply starts_bind; [apply starts_external|]. intros _.
  pose proof extends_refl. pose proof extends_trans.
  pose proof (fun e (_ : forall p, e <> EvRemove p) => extends_emit e).
  keeps_go; eauto with keeps; apply keeps_external; eauto with keeps; congruence.
Qed.

Lemma handle_document_checked w update doc ct name size s :
  message_document update = Some doc ->
  user_data s !! KEY = Some ct -> ct <> [] ->
  file_name doc = Some name -> name <> [] ->
  dispatcher_ext_ok ct name = true ->
  file_size doc = Some size ->
  handle_document w update s
  = (if max_size <? size then reply_text w MSG_TOO_LARGE
     else transfer_job w (effective_chat_id update) ct (file_id doc) name) s.
Proof.
  intros Hdoc Hsel Hct Hname Hne Hext Hsize.
  unfold handle_document. rewrite Hdoc.
  unfold mbind at 1, M_bind at 1, bind at 1. simpl.
  rewrite Hsel, Hname, Hsize. simpl.
  rewrite (truthy_true ct Hct), (truthy_true name Hne). simpl.
  unfold dispatcher_ext_ok in Hext.
  destruct (str_eqb ct WORD_TO_PDF).
  - rewrite Hext. done.
  - destruct (str_eqb ct PDF_TO_WORD); [rewrite Hext|]; done.
Qed.

(** C5. For a document that passed the selection, file-name and extension
    checks and reports a size: the handler answers with the oversize
    message, and does nothing else, exactly when the size is strictly
    above 20 * 1024 * 1024 bytes; at that size or below it runs the
    transfer job. *)
Theorem C5_size_limit
    (w : World) (update : Update) (doc : TgDocument) (ct name : pystr)
    (size : N) (s : State) :
  message_document update = Some doc ->
  user_data s !! KEY = Some ct -> ct <> [] ->
  file_name doc = Some name -> name <> [] ->
  dispatcher_ext_ok ct name = true ->
  file_size doc = Some size ->
  max_size = 20 * 1024 * 1024
  /\ (events_of (handle_document w update) s = [EvReply MSG_TOO_LARGE]
      <-> max_size < size)
  /\ (max_size < size ->
      download_attempted (events_of (handle_document w update) s) = false
      /\ fs (final (handle_document w update) s) = fs s)
  /\ (size <= max_size ->
      handle_document w update s
      = transfer_job w (effective_chat_id update) ct (file_id doc) name s).
Proof.
  intros Hdoc Hsel Hct Hname Hne Hext Hsize.
  pose proof (handle_document_checked w update doc ct name size s
                Hdoc Hsel Hct Hname Hne Hext Hsize) as Hrun.
  split; [done|].
  destruct (N.ltb_spec max_size size) as [Hlt|Hle].
  - assert (Hfin : final (handle_document w update) s
                   = final (emit (EvReply MSG_TOO_LARGE)) s).
    { unfold final at 1. rewrite Hrun. apply reply_text_final. }
    assert (Hev : events_of (handle_document w update) s
                  = [EvReply MSG_TOO_LARGE]).
    { apply events_of_extends. rewrite Hfin. done. }
    split; [done|]. split; [rewrite Hev, Hfin; done|]. lia.
  - assert (Hfin : final (handle_document w update) s
                   = final (transfer_job w (effective_chat_id update) ct
                              (file_id doc) name) s).
    { unfold final. rewrite Hrun. done. }
    split; [|split; [lia | done]].
    split; [|lia].
    destruct (transfer_job_starts_with_mkdir w (effective_chat_id update) ct
                (file_id doc) name s) as [evs Hevs].
    rewrite <- Hfin in Hevs. apply events_of_extends in Hevs.
    rewrite Hevs. discriminate.
Qed.

(** ** Case-insensitive extensions *)

Lemma lower_char_eqb_special c d :
  d < 65 -> (lower_char c =? d) = (c =? d).
Proof.
  intros Hd. unfold lower_char.
  destruct (N.leb_spec 65 c); destruct (N.leb_spec c 90); simpl; try done.
  destruct (N.eqb_spec (c + 32) d); destruct (N.eqb_spec c d); try done; lia.
Qed.

Lemma lower_length s : length (lower s) = length s.
Proof. apply length_map. Qed.

Lemma lower_truthy s : truthy (lower s) = truthy s.
Proof. destruct s; done. Qed.

Lemma lower_is_dot x : str_eqb (lower x) [dot] = str_eqb x [dot].
Proof.
  unfold str_eqb, lower. apply bool_decide_ext.
  destruct x as [|c [|d x]]; simpl; try done.
  pose proof (lower_char_eqb_special c dot eq_refl) as H.
  split; intros [= Hc]; f_equal; apply N.eqb_eq.
  - rewrite <- H. apply N.eqb_eq. done.
  - rewrite H. apply N.eqb_eq. done.
Qed.

Lemma split_lower s : split slash (lower s) = List.map lower (split slash s).
Proof.
  induction s as [|c s IH]; simpl; [done|].
  rewrite (lower_char_eqb_special c slash eq_refl).
  destruct (c =? slash); simpl; [rewrite <- IH; done|].
  fold (lower s). rewrite IH.
  destruct (split slash s); done.
Qed.

Lemma splitroot_lower p :
  splitroot (lower p) = ((splitroot p).1, lower (splitroot p).2).
Proof.
  destruct p as [|a [|b [|c p]]]; simpl; try done;
    rewrite ?(lower_char_eqb_special a slash eq_refl),
            ?(lower_char_eqb_special b slash eq_refl),
            ?(lower_char_eqb_special c slash eq_refl);
    repeat (match goal with |- context [if ?x then _ else _] => destruct x end);
    done.
Qed.

Lemma filter_parts_lower l :
  List.filter (fun x => truthy x && negb (str_eqb x [dot])) (List.map lower l)
  = List.map lower
      (List.filter (fun x => truthy x && negb (str_eqb x [dot])) l).
Proof.
  induction l as [|x l IH]; simpl; [done|].
  rewrite lower_truthy, lower_is_dot.
  destruct (truthy x && negb (str_eqb x [dot])); simpl; rewrite IH; done.
Qed.

Lemma last_lower l : List.last (List.map lower l) [] = lower (List.last l []).
Proof.
  induction l as [|x [|y l] IH]; simpl in *; done.
Qed.

Lemma Path_name_lower p :
  Path_name (Path_of (lower p)) = lower (Path_name (Path_of p)).
Proof.
  unfold Path_name, Path_of. rewrite splitroot_lower.
  destruct (splitroot p) as [r rel]; simpl.
  rewrite split_lower, filter_parts_lower. apply last_lower.
Qed.

Lemma rfind_from_lower s i acc :
  rfind_from dot (lower s) i acc = rfind_from dot s i acc.
Proof.
  revert i acc. induction s as [|c s IH]; intros i acc; simpl; [done|].
  rewrite (lower_char_eqb_special c dot eq_refl). apply IH.
Qed.

Lemma skipn_lower n s : skipn n (lower s) = lower (skipn n s).
Proof. unfold lower. apply skipn_map. Qed.

Lemma Path_suffix_lower p :
  Path_suffix (Path_of (lower p)) = lower (Path_suffix (Path_of p)).
Proof.
  unfold Path_suffix. rewrite Path_name_lower.
  unfold rfind. rewrite rfind_from_lower, lower_length.
  destruct (_ && _)%bool; [apply skipn_lower | done].
Qed.

(** ** Word to PDF: the text blocks *)

Lemma truthy_lstrip s :
  truthy (lstrip s) = existsb (fun c => negb (isspace c)) s.
Proof.
  induction s as [|c s IH]; simpl; [done|].
  destruct (isspace c); simpl; done.
Qed.

Lemma existsb_lstrip s :
  existsb (fun c => negb (isspace c)) (lstrip s)
  = existsb (fun c => negb (isspace c)) s.
Proof.
  induction s as [|c s IH]; simpl; [done|].
  destruct (isspace c) eqn:Hc; simpl; [done|]. rewrite Hc. done.
Qed.

Lemma truthy_rev (s : pystr) : truthy (rev s) = truthy s.
Proof.
  destruct s as [|c s]; simpl; [done|].
  destruct (rev s ++ [c]) eqn:H; [|done].
  apply app_eq_nil in H. destruct H; done.
Qed.

Lemma existsb_rev_eq (f : N -> bool) s : existsb f (rev s) = existsb f s.
Proof.
  induction s as [|c s IH]; simpl; [done|].
  rewrite existsb_app, IH. simpl. rewrite orb_false_r. apply orb_comm.
Qed.

Lemma strip_non_blank s : truthy (strip s) = non_blank s.
Proof.
  unfold strip, rstrip, non_blank.
  rewrite truthy_rev, truthy_lstrip, existsb_rev_eq, existsb_lstrip. done.
Qed.

Lemma process_paragraphs_cells paragraphs pdf :
  fpdf_cells (fold_left process_paragraph paragraphs pdf)
  = fpdf_cells pdf
    ++ List.map (List.filter (fun c => c <? 128))
         (List.filter non_blank paragraphs).
Proof.
  revert pdf. induction paragraphs as [|p ps IH]; intros pdf; simpl.
  - symmetry. apply app_nil_r.
  - rewrite IH. unfold process_paragraph. rewrite strip_non_blank.
    destruct (non_blank p); simpl; [|done].
    rewrite <- app_assoc. done.
Qed.

Lemma filter_ascii_bound (p : pystr) :
  Forall (fun c => c < 128) (List.filter (fun c => c <? 128) p).
Proof.
  apply List.Forall_forall. intros c Hc. apply filter_In in Hc.
  apply N.ltb_lt. tauto.
Qed.

Lemma filter_ascii_id (p : pystr) :
  Forall (fun c => c < 128) p -> List.filter (fun c => c <? 128) p = p.
Proof.
  induction 1 as [|c p Hc _ IH]; simpl; [done|].
  apply N.ltb_lt in Hc. rewrite Hc, IH. done.
Qed.

(** C1 (amended). For a Word document with an accepted extension,
    [word_to_pdf] returns the output path and the PDF written there holds
    one text block per paragraph that is not blank, in the order of the
    paragraphs, each block being the paragraph's text without its code
    points from 128 on (every code point below 128, control characters
    included, is kept); a pure ASCII document keeps its non-blank
    paragraphs as they are. *)
Theorem C1_word_to_pdf_blocks
    (w : World) (self : FileConverter) (path : pystr)
    (paragraphs : list pystr) (s : State) :
  let output :=
    Path_str (Path_div (temp_dir self)
                (Path_stem (Path_of path) ++ py ".pdf")) in
  let blocks :=
    List.map (List.filter (fun c => c <? 128))
      (List.filter non_blank paragraphs) in
  word_ext_ok path = true ->
  fs s !! resolve w path = Some (Docx paragraphs) ->
  w_fpdf_output w output = IODone ->
  outcome (word_to_pdf w self path) s = Ret output
  /\ fs (final (word_to_pdf w self path) s) !! resolve w output
     = Some (PdfFile blocks)
  /\ length blocks = length (List.filter non_blank paragraphs)
  /\ Forall (fun block => Forall (fun c => c < 128) block) blocks
  /\ (Forall (fun p => Forall (fun c => c < 128) p) paragraphs ->
      blocks = List.filter non_blank paragraphs).
Proof.
  intros output blocks Hext Hfile Hout.
  assert (Hrun : word_to_pdf w self path s
                 = (Ret output,
                    final (set_fs (<[resolve w output := PdfFile blocks]> (fs s))) s)).
  { unfold word_to_pdf, try_except, word_ext_ok in *. rewrite Hext.
    unfold os_path_exists, os_path_getsize, docx_Document, FPDF_output,
      write_file, mbind, M_bind, bind.
    simpl. repeat (rewrite Hfile; simpl).
    fold output. rewrite Hout. simpl.
    rewrite lookup_insert_eq. simpl.
    rewrite process_paragraphs_cells. done. }
  unfold outcome, final at 1. rewrite Hrun. simpl.
  split; [done|]. split; [apply lookup_insert_eq|].
  split; [apply length_map|]. split.
  - apply List.Forall_forall. intros block Hb. apply in_map_iff in Hb.
    destruct Hb as [p [<- _]]. apply filter_ascii_bound.
  - intros Hascii. unfold blocks.
    rewrite <- (map_id (List.filter non_blank paragraphs)) at 2.
    apply map_ext_in. intros p Hp. apply filter_ascii_id.
    apply filter_In in Hp. destruct Hp as [Hp _].
    rewrite List.Forall_forall in Hascii. auto.
Qed.


#[local] Arguments word_to_pdf : simpl never.
#[local] Arguments pdf_to_word : simpl never.
#[local] Arguments transfer_except : simpl never.
#[local] Arguments log_and_reraise : simpl never.

(** ** Cleanup after a transfer job *)

Lemma same_files_refl s : same_files s s.
Proof. done. Qed.

Lemma same_files_trans s1 s2 s3 :
  same_files s1 s2 -> same_files s2 s3 -> same_files s1 s3.
Proof. unfold same_files, same_locals. intros (? & ? & ?) (? & ? & ?). repeat split; congruence. Qed.

Lemma same_files_emit e : keeps same_files (emit e).
Proof. done. Qed.

Lemma same_locals_refl s : same_locals s s.
Proof. done. Qed.

Lemma same_locals_trans s1 s2 s3 :
  same_locals s1 s2 -> same_locals s2 s3 -> same_locals s1 s3.
Proof. unfold same_locals. intros (? & ?) (? & ?). split; congruence. Qed.

Lemma same_locals_emit e : keeps same_locals (emit e).
Proof. done. Qed.

Lemma same_locals_set_fs f : keeps same_locals (set_fs f).
Proof. done. Qed.

#[local] Hint Resolve same_files_refl same_files_trans same_files_emit
  same_locals_refl same_locals_trans same_locals_emit same_locals_set_fs : keeps.

Lemma log_and_reraise_spec w what p e s :
  outcome (log_and_reraise w what p e) s = Raise e
  /\ same_files s (final (log_and_reraise w what p e) s).
Proof.
  split; [apply log_and_reraise_outcome|].
  apply keeps_log_and_reraise; eauto with keeps.
Qed.

Ltac reraise_leaf :=
  match goal with
  | |- context [log_and_reraise ?w ?what ?p ?e ?s] =>
      destruct (log_and_reraise_spec w what p e s) as [Ho [Hf _]];
      unfold outcome, final in Ho, Hf; rewrite Ho; simpl; rewrite Hf; simpl;
      try done
  end.

Lemma word_to_pdf_spec w self path s :
  (forall p e, w_fpdf_output w p <> IOFail e true) ->
  let output :=
    Path_str (Path_div (temp_dir self)
                (Path_stem (Path_of path) ++ py ".pdf")) in
  same_locals s (final (word_to_pdf w self path) s)
  /\ match outcome (word_to_pdf w self path) s with
     | Ret o =>
         o = output
         /\ forall k, k <> resolve w output ->
                      fs (final (word_to_pdf w self path) s) !! k = fs s !! k
     | Raise _ => fs (final (word_to_pdf w self path) s) = fs s
     end.
Proof.
  intros Hpartial output.
  split; [apply keeps_word_to_pdf; eauto with keeps|].
  unfold outcome, final, word_to_pdf, try_except.
  fold output.
  unfold os_path_exists, os_path_getsize, docx_Document, FPDF_output,
    write_file, mbind, M_bind, bind.
  destruct (str_in _ _); simpl; [|reraise_leaf].
  destruct (w_fpdf_output w output) as [| |e [|]] eqn:Hout;
    [| | destruct (Hpartial _ _ Hout) |];
    (destruct (fs s !! resolve w path) as [[ps|ct|bs|d]|] eqn:Hin; simpl;
     repeat (first [rewrite Hin | rewrite lookup_insert_eq]; simpl);
     try reraise_leaf).
  - split; [done|]. intros k Hk. apply lookup_insert_ne. done.
  - destruct (fs s !! resolve w output); simpl; [|reraise_leaf].
    done.
Qed.

Lemma pdf_to_word_spec w self path s :
  (forall c e, w_pdf2docx w c <> IOFail e true) ->
  let output :=
    Path_str (Path_div (temp_dir self)
                (Path_stem (Path_of path) ++ py ".docx")) in
  same_locals s (final (pdf_to_word w self path) s)
  /\ match outcome (pdf_to_word w self path) s with
     | Ret o =>
         o = output
         /\ forall k, k <> resolve w output ->
                      fs (final (pdf_to_word w self path) s) !! k = fs s !! k
     | Raise _ => fs (final (pdf_to_word w self path) s) = fs s
     end.
Proof.
  intros Hpartial output.
  split; [apply keeps_pdf_to_word; eauto with keeps|].
  unfold outcome, final, pdf_to_word, try_except.
  fold output.
  unfold os_path_exists, os_path_getsize, pdf2docx_convert, open_rb,
    write_file, mbind, M_bind, bind.
  destruct (str_eqb _ _); simpl; [|reraise_leaf].
  destruct (fs s !! resolve w path) as [c|] eqn:Hin; simpl;
    repeat (rewrite Hin; simpl); try reraise_leaf.
  destruct (w_pdf2docx w c) as [| |e [|]] eqn:Hout;
    [| | destruct (Hpartial _ _ Hout) |]; simpl;
    repeat (first [rewrite Hin | rewrite lookup_insert_eq]; simpl);
    try reraise_leaf.
  - split; [done|]. intros k Hk. apply lookup_insert_ne. done.
  - destruct (fs s !! resolve w output); simpl; [|reraise_leaf].
    done.
Qed.

Lemma job_post_same_files w s0 name out s1 s2 :
  job_post w s0 name out s1 -> same_files s1 s2 -> job_post w s0 name out s2.
Proof.
  unfold job_post, same_files, same_locals.
  intros H (Hfs & Hd & Ho). rewrite Hfs, Hd, Ho. done.
Qed.

Lemma transfer_except_same_files w e s :
  same_files s (transfer_except w e s).2.
Proof.
  apply (keeps_transfer_except same_files); eauto with keeps.
Qed.

Ltac except_leaf :=
  lazymatch goal with
  | |- job_post ?w ?s0 ?n ?o (transfer_except ?w ?e ?S).2 =>
      apply (job_post_same_files w s0 n o S);
      [| apply transfer_except_same_files]
  end.

Ltac post_nothing := left; cbn; done.

Ltac post_download :=
  right; left; cbn; repeat split; try done;
  intros; rewrite ?lookup_insert_ne by done; auto.

(** Runs the converter named in the goal through its specification. *)
Ltac use_converter Hpdf Hdocx :=
  let Hl := fresh "Hl" in
  let Hr := fresh "Hr" in
  lazymatch goal with
  | |- context [word_to_pdf ?w ?fc ?p ?S] =>
      destruct (word_to_pdf_spec w fc p S Hpdf) as [Hl Hr];
      unfold outcome, final, same_locals in Hl, Hr;
      destruct (word_to_pdf w fc p S) as [[o|e] S2]; cbn in Hl, Hr |- *
  | |- context [pdf_to_word ?w ?fc ?p ?S] =>
      destruct (pdf_to_word_spec w fc p S Hdocx) as [Hl Hr];
      unfold outcome, final, same_locals in Hl, Hr;
      destruct (pdf_to_word w fc p S) as [[o|e] S2]; cbn in Hl, Hr |- *
  end;
  [ destruct Hr as [-> Hr], Hl as [Hl Hl'] | destruct Hl as [Hl Hl'] ].

(** The steps of [transfer_body] after the converter was called. *)
Ltac after_converter Ho :=
  lazymatch goal with
  | Hl : download_path ?S2 = Some _, Hl' : output_path ?S2 = _,
    Hr : forall k, _ -> fs ?S2 !! k = _ |- _ =>
      let E := fresh "E" in
      destruct (fs S2 !! resolve _ _) eqn:E; cbn; rewrite ?E; cbn;
      [ destruct (w_send_document _); cbn | ];
      try except_leaf;
      (right; right; cbn; split; [exact Hl|]; split; [done|];
       intros k H1 H2; rewrite (Hr k H2); rewrite ?lookup_insert_ne by done;
       done)
  | Hl : download_path ?S2 = Some _, Hl' : output_path ?S2 = _,
    Hr : fs ?S2 = _ |- _ =>
      except_leaf;
      right; left; cbn; split; [exact Hl|]; split; [congruence|];
      intros k H1; rewrite Hr; rewrite ?lookup_insert_ne by done; done
  end.

Ltac convert_phase Hpdf Hdocx Ho :=
  lazymatch goal with
  | |- context [str_eqb ?ct WORD_TO_PDF] =>
      let Hct := fresh "Hct" in
      unfold job_output_path, job_download_path, file_converter;
      destruct (str_eqb ct WORD_TO_PDF) eqn:Hct; cbn;
      use_converter Hpdf Hdocx; after_converter Ho
  end.

Lemma transfer_body_post w chat ct fid name s :
  (forall p e, w_fpdf_output w p <> IOFail e true) ->
  (forall c e, w_pdf2docx w c <> IOFail e true) ->
  download_path s = None -> output_path s = None ->
  job_post w s name (job_output_path w ct name)
    (final (try_except (transfer_body w chat ct fid name) (transfer_except w)) s).
Proof.
  intros Hpdf Hdocx Hd Ho.
  unfold final, try_except, transfer_body, external, reply_text, external,
    write_file, os_path_exists, os_path_getsize, open_rb, mbind, M_bind, bind.
  cbn.
  destruct (w_mkdir w _); cbn.
  { except_leaf. post_nothing. }
  destruct (w_get_file w fid); cbn.
  { except_leaf. post_nothing. }
  destruct (w_download w fid) as [| |e [|]]; cbn.
  - repeat (rewrite lookup_insert_eq; cbn).
    destruct (w_reply w MSG_CONVERTING); cbn;
      repeat (rewrite lookup_insert_eq; cbn).
    { except_leaf. post_download. }
    convert_phase Hpdf Hdocx Ho.
  - destruct (fs s !! resolve w _) eqn:Hpre; cbn; rewrite ?Hpre; cbn.
    2:{ except_leaf. post_download. }
    destruct (w_reply w MSG_CONVERTING); cbn.
    { except_leaf. post_download. }
    convert_phase Hpdf Hdocx Ho.
  - except_leaf. post_download.
  - except_leaf. post_download.
Qed.

Lemma Path_str_truthy p : truthy (Path_str p) = true.
Proof. unfold Path_str. destruct (root p ++ join [slash] (parts p)); done. Qed.

Lemma removed_nil_refl s : extends_without_remove s s.
Proof. exists []. split; [symmetry; apply app_nil_r | done]. Qed.

Lemma removed_nil_emit e :
  (forall p, e <> EvRemove p) -> keeps extends_without_remove (emit e).
Proof.
  intros He s. exists [e]. split; [done|].
  destruct e; cbn; try done. destruct (He path). done.
Qed.

Lemma removed_nil_set_fs f : keeps extends_without_remove (set_fs f).
Proof. intros s. exists []. split; [symmetry; apply app_nil_r | done]. Qed.

Lemma removed_nil_set_download_path p :
  keeps extends_without_remove (set_download_path p).
Proof. intros s. exists []. split; [symmetry; apply app_nil_r | done]. Qed.

Lemma removed_nil_set_output_path p :
  keeps extends_without_remove (set_output_path p).
Proof. intros s. exists []. split; [symmetry; apply app_nil_r | done]. Qed.

#[local] Hint Resolve removed_nil_refl extends_without_remove_trans
  removed_nil_emit removed_nil_set_fs removed_nil_set_download_path
  removed_nil_set_output_path : keeps.

Lemma transfer_body_removes_nothing w chat ct fid name :
  keeps extends_without_remove
    (try_except (transfer_body w chat ct fid name) (transfer_except w)).
Proof.
  apply keeps_try_except; eauto with keeps.
Qed.

Lemma transfer_finally_restores w s0 name out s1 :
  (forall p, w_remove w p = None) ->
  truthy out = true ->
  job_post w s0 name out s1 ->
  fs s0 !! resolve w (job_download_path name) = None ->
  fs s0 !! resolve w out = None ->
  fs (final (transfer_finally w) s1) = fs s0
  /\ exists evs,
       trace (final (transfer_finally w) s1) = trace s1 ++ evs
       /\ NoDup (removed_paths evs)
       /\ forall p, In p (removed_paths evs) ->
                    p = job_download_path name \/ p = out.
Proof.
  intros Hrm Htr Hpost Hfd Hfo.
  unfold job_download_path in *.
  set (dl := Path_str (Path_div (Path_of (py "temp")) name)) in *.
  unfold final, transfer_finally, cleanup_temp_files, try_except,
    os_path_exists, os_remove, mbind, M_bind, bind.
  cbn.
  destruct Hpost as [(Hd & Ho & Hfs) | [(Hd & Ho & Hfs) | (Hd & Ho & Hfs)]];
    rewrite Hd, Ho; cbn.
  - split; [done|]. exists []. split; [symmetry; apply app_nil_r|].
    split; [apply NoDup_nil_2 | intros p []].
  - fold dl.
    destruct (fs s1 !! resolve w dl) eqn:E1; cbn; rewrite ?E1; cbn.
    + rewrite Hrm. cbn. split.
      * apply map_eq. intros k. destruct (decide (k = resolve w dl)) as [->|Hk].
        -- rewrite lookup_delete_eq. done.
        -- rewrite lookup_delete_ne by done. auto.
      * exists [EvRemove dl]. split; [done|]. cbn.
        split; [apply NoDup_singleton | intros p [<-|[]]; auto].
    + split.
      * apply map_eq. intros k. destruct (decide (k = resolve w dl)) as [->|Hk].
        -- congruence.
        -- auto.
      * exists []. split; [symmetry; apply app_nil_r|].
        split; [apply NoDup_nil_2 | intros p []].
  - fold dl. rewrite Htr.
    destruct (fs s1 !! resolve w dl) eqn:E1; cbn; rewrite ?E1; cbn.
    + rewrite Hrm. cbn.
      destruct (delete (resolve w dl) (fs s1) !! resolve w out) eqn:E2;
        cbn; rewrite ?E2; cbn.
      * rewrite Hrm. cbn. split.
        -- apply map_eq. intros k.
           destruct (decide (k = resolve w out)) as [->|Hk2].
           { rewrite lookup_delete_eq. done. }
           rewrite lookup_delete_ne by done.
           destruct (decide (k = resolve w dl)) as [->|Hk1].
           { rewrite lookup_delete_eq. done. }
           rewrite lookup_delete_ne by done. auto.
        -- exists [EvRemove dl; EvRemove out]. split.
           { rewrite <- app_assoc. done. }
           cbn. split.
           { assert (dl <> out) as Hne.
             { intros Heq. rewrite <- Heq, lookup_delete_eq in E2. done. }
             apply NoDup_cons_2; [|apply NoDup_singleton].
             intros Hin. apply list_elem_of_singleton in Hin. done. }
           intros p [<-|[<-|[]]]; auto.
      * split.
        -- apply map_eq. intros k.
           destruct (decide (k = resolve w dl)) as [->|Hk1].
           { rewrite lookup_delete_eq. done. }
           destruct (decide (k = resolve w out)) as [->|Hk2].
           { congruence. }
           rewrite lookup_delete_ne by done. auto.
        -- exists [EvRemove dl]. split; [done|]. cbn.
           split; [apply NoDup_singleton | intros p [<-|[]]; auto].
    + destruct (fs s1 !! resolve w out) eqn:E2; cbn; rewrite ?E2; cbn.
      * rewrite Hrm. cbn. split.
        -- apply map_eq. intros k.
           destruct (decide (k = resolve w out)) as [->|Hk2].
           { rewrite lookup_delete_eq. done. }
           rewrite lookup_delete_ne by done.
           destruct (decide (k = resolve w dl)) as [->|Hk1].
           { congruence. }
           auto.
        -- exists [EvRemove out]. split; [done|]. cbn.
           split; [apply NoDup_singleton | intros p [<-|[]]; auto].
      * split.
        -- apply map_eq. intros k.
           destruct (decide (k = resolve w dl)) as [->|Hk1]; [congruence|].
           destruct (decide (k = resolve w out)) as [->|Hk2]; [congruence|].
           auto.
        -- exists []. split; [symmetry; apply app_nil_r|].
           split; [apply NoDup_nil_2 | intros p []].
Qed.

(** C2 (amended). Provided the job's two paths were not in the scratch
    directory before, every [os.remove] succeeds and a converter that
    raises leaves no partial output, a transfer job, whether it succeeds
    or fails at any point, ends with the file system exactly as it found
    it: neither the download nor the output remains.  Only the job's two
    paths are ever removed, and none is removed twice. *)
Theorem C2_job_restores_scratch_directory
    (w : World) (chat : N) (ct fid name : pystr) (s : State) :
  (forall p, w_remove w p = None) ->
  (forall p e, w_fpdf_output w p <> IOFail e true) ->
  (forall c e, w_pdf2docx w c <> IOFail e true) ->
  fs s !! resolve w (job_download_path name) = None ->
  fs s !! resolve w (job_output_path w ct name) = None ->
  fs (final (transfer_job w chat ct fid name) s) = fs s
  /\ NoDup (removed_paths (events_of (transfer_job w chat ct fid name) s))
  /\ forall p,
       In p (removed_paths (events_of (transfer_job w chat ct fid name) s)) ->
       p = job_download_path name \/ p = job_output_path w ct name.
Proof.
  intros Hrm Hpdf Hdocx Hfd Hfo.
  set (s0 := final (set_output_path None) (final (set_download_path None) s)).
  set (body := try_except (transfer_body w chat ct fid name) (transfer_except w)).
  assert (Hfin : final (transfer_job w chat ct fid name) s
                 = final (transfer_finally w) (final body s0)).
  { unfold final, transfer_job, try_finally, mbind, M_bind, bind. cbn.
    fold body. unfold s0, final. cbn.
    destruct (body _) as [r s1]. cbn.
    destruct (transfer_finally w s1) as [[u|e] s2]; done. }
  assert (Hpost : job_post w s0 name (job_output_path w ct name) (final body s0)).
  { apply transfer_body_post; done. }
  destruct (transfer_body_removes_nothing w chat ct fid name s0)
    as [evs1 [Ht1 Hr1]].
  fold body in Ht1.
  destruct (transfer_finally_restores w s0 name (job_output_path w ct name)
              (final body s0) Hrm (Path_str_truthy _) Hpost Hfd Hfo)
    as [Hfs [evs2 [Ht2 [Hnd Hin]]]].
  assert (Hev : events_of (transfer_job w chat ct fid name) s = evs1 ++ evs2).
  { apply events_of_extends. rewrite Hfin, Ht2, Ht1, <- app_assoc. done. }
  rewrite Hev, removed_paths_app, Hr1, Hfin. cbn.
  split; [exact Hfs|]. split; assumption.
Qed.

(** ** The claims at concrete inputs *)

(** C1 at the document of test_conversion.py: three ASCII paragraphs give
    three blocks, the same texts in the same order. *)
Lemma C1_witness :
  let w := deployment (Docx sample_paragraphs) None in
  let path := py "temp/test_document.docx" in
  let s := with_file (py "/srv/bot/temp/test_document.docx")
             (Docx sample_paragraphs) fresh_state in
  (word_ext_ok path = true
   /\ fs s !! resolve w path = Some (Docx sample_paragraphs))
  /\ outcome (word_to_pdf w (file_converter w) path) s
     = Ret (py "/srv/bot/temp/test_document.pdf")
  /\ fs (final (word_to_pdf w (file_converter w) path) s)
       !! py "/srv/bot/temp/test_document.pdf"
     = Some (PdfFile sample_paragraphs).
Proof.
  cbv zeta.
  assert (H1 : word_ext_ok (py "temp/test_document.docx") = true)
    by (vm_compute; reflexivity).
  assert (H2 : fs (with_file (py "/srv/bot/temp/test_document.docx")
                     (Docx sample_paragraphs) fresh_state)
                 !! resolve (deployment (Docx sample_paragraphs) None)
                      (py "temp/test_document.docx")
               = Some (Docx sample_paragraphs))
    by (vm_compute; reflexivity).
  split; [split; assumption|].
  destruct (C1_word_to_pdf_blocks
              (deployment (Docx sample_paragraphs) None)
              (file_converter (deployment (Docx sample_paragraphs) None))
              (py "temp/test_document.docx") sample_paragraphs
              (with_file (py "/srv/bot/temp/test_document.docx")
                 (Docx sample_paragraphs) fresh_state)
              H1 H2 eq_refl) as (Ha & Hb & _).
  split; [exact Ha | exact Hb].
Defined.

(** C1 as stated fails: DEL (127) and TAB (9) lie outside the printable
    range 32..126, and both are kept in the block. *)
Lemma C1_counterexample :
  let w := deployment (Docx [[97; 127; 9; 98]]) None in
  let s := with_file (py "/srv/bot/temp/a.docx") (Docx [[97; 127; 9; 98]])
             fresh_state in
  outcome (word_to_pdf w (file_converter w) (py "temp/a.docx")) s
  = Ret (py "/srv/bot/temp/a.pdf")
  /\ fs (final (word_to_pdf w (file_converter w) (py "temp/a.docx")) s)
       !! py "/srv/bot/temp/a.pdf"
     = Some (PdfFile [[97; 127; 9; 98]])
  /\ printable7 127 = false /\ printable7 9 = false.
Proof. vm_compute. repeat split; reflexivity. Qed.

(** C2 at a Word upload that converts and is sent. *)
Lemma C2_witness :
  let w := deployment (Docx sample_paragraphs) None in
  let name := py "report.docx" in
  (fs fresh_state !! resolve w (job_download_path name) = None
   /\ fs fresh_state !! resolve w (job_output_path w WORD_TO_PDF name) = None)
  /\ fs (final (transfer_job w 1 WORD_TO_PDF (py "file-1") name) fresh_state)
     = fs fresh_state
  /\ removed_paths
       (events_of (transfer_job w 1 WORD_TO_PDF (py "file-1") name) fresh_state)
     = [py "temp/report.docx"; py "/srv/bot/temp/report.pdf"].
Proof.
  cbv zeta.
  assert (H1 : fs fresh_state
                 !! resolve (deployment (Docx sample_paragraphs) None)
                      (job_download_path (py "report.docx")) = None)
    by (vm_compute; reflexivity).
  assert (H2 : fs fresh_state
                 !! resolve (deployment (Docx sample_paragraphs) None)
                      (job_output_path (deployment (Docx sample_paragraphs) None)
                         WORD_TO_PDF (py "report.docx")) = None)
    by (vm_compute; reflexivity).
  split; [split; assumption|].
  destruct (C2_job_restores_scratch_directory
              (deployment (Docx sample_paragraphs) None) 1 WORD_TO_PDF
              (py "file-1") (py "report.docx") fresh_state
              (fun p => eq_refl)
              (fun p e (H : IODone = IOFail e true) =>
                 eq_ind IODone
                   (fun o => match o with IODone => True | _ => False end)
                   I _ H)
              (fun c e (H : IODone = IOFail e true) =>
                 eq_ind IODone
                   (fun o => match o with IODone => True | _ => False end)
                   I _ H)
              H1 H2) as (Hfs & _ & _).
  split; [exact Hfs | vm_compute; reflexivity].
Defined.

(** C2 as stated fails when [os.remove] fails: the handler ends normally,
    the failures are only logged, and both the download and the output are
    still in the scratch directory, which was empty before. *)
Lemma C2_counterexample :
  let w := deployment (Docx sample_paragraphs) (Some permission_denied) in
  let job := transfer_job w 1 WORD_TO_PDF (py "file-1") (py "report.docx") in
  fs fresh_state = ∅
  /\ outcome job fresh_state = Ret tt
  /\ fs (final job fresh_state) !! py "/srv/bot/temp/report.docx"
     = Some (Docx sample_paragraphs)
  /\ fs (final job fresh_state) !! py "/srv/bot/temp/report.pdf"
     = Some (PdfFile sample_paragraphs).
Proof. vm_compute. repeat split; reflexivity. Qed.

(** C3 at a session that never pressed a button. *)
Lemma C3_witness :
  let w := deployment (Docx sample_paragraphs) None in
  truthy_opt (user_data fresh_state !! KEY) = false
  /\ events_of (handle_document w (upload (py "report.docx") 1000)) fresh_state
     = [EvReply MSG_SELECT_FIRST]
  /\ download_attempted
       (events_of (handle_document w (upload (py "report.docx") 1000))
          fresh_state) = false.
Proof.
  cbv zeta.
  assert (H : truthy_opt (user_data fresh_state !! KEY) = false)
    by (vm_compute; reflexivity).
  split; [exact H|].
  destruct (C3_document_without_selection
              (deployment (Docx sample_paragraphs) None)
              (upload (py "report.docx") 1000) _ fresh_state eq_refl H)
    as (Ha & Hb & _).
  split; [exact Ha | exact Hb].
Defined.

(** C4 at the scenario of the specification: the button pdf_to_word, then
    an upload of report.docx. *)
Lemma C4_witness :
  let w := deployment (Docx sample_paragraphs) None in
  let s := final (button_callback w (Some PDF_TO_WORD)) fresh_state in
  let update := upload (py "report.docx") 1000 in
  (user_data s !! KEY = Some PDF_TO_WORD
   /\ dispatcher_ext_ok PDF_TO_WORD (py "report.docx") = false)
  /\ events_of (handle_document w update) s = [EvReply MSG_NOT_PDF]
  /\ download_attempted (events_of (handle_document w update) s) = false
  /\ user_data (final (handle_document w update) s) !! KEY = Some PDF_TO_WORD.
Proof.
  cbv zeta.
  set (w := deployment (Docx sample_paragraphs) None).
  set (s := final (button_callback w (Some PDF_TO_WORD)) fresh_state).
  assert (H1 : user_data s !! KEY = Some PDF_TO_WORD)
    by (vm_compute; reflexivity).
  assert (H2 : dispatcher_ext_ok PDF_TO_WORD (py "report.docx") = false)
    by (vm_compute; reflexivity).
  assert (H3 : py "report.docx" <> []) by (vm_compute; discriminate).
  split; [split; assumption|].
  destruct (C4_extension_mismatch w (upload (py "report.docx") 1000) _
              PDF_TO_WORD (py "report.docx") s eq_refl (or_intror eq_refl)
              H1 eq_refl H3 H2) as (Ha & Hb & _ & Hd).
  split; [exact Ha|]. split; [exact Hb|]. rewrite Hd. exact H1.
Defined.

(** C5 at a Word upload of exactly 20 MiB: it is accepted. *)
Lemma C5_witness :
  let w := deployment (Docx sample_paragraphs) None in
  let s := with_selection WORD_TO_PDF fresh_state in
  let update := upload (py "report.docx") (20 * 1024 * 1024) in
  (user_data s !! KEY = Some WORD_TO_PDF
   /\ dispatcher_ext_ok WORD_TO_PDF (py "report.docx") = true)
  /\ handle_document w update s
     = transfer_job w 1 WORD_TO_PDF (py "file-1") (py "report.docx") s
  /\ download_attempted (events_of (handle_document w update) s) = true.
Proof.
  cbv zeta.
  set (w := deployment (Docx sample_paragraphs) None).
  set (s := with_selection WORD_TO_PDF fresh_state).
  assert (H1 : user_data s !! KEY = Some WORD_TO_PDF)
    by (vm_compute; reflexivity).
  assert (H2 : dispatcher_ext_ok WORD_TO_PDF (py "report.docx") = true)
    by (vm_compute; reflexivity).
  assert (H3 : py "report.docx" <> []) by (vm_compute; discriminate).
  assert (H4 : WORD_TO_PDF <> []) by (vm_compute; discriminate).
  split; [split; assumption|].
  destruct (C5_size_limit w (upload (py "report.docx") (20 * 1024 * 1024)) _
              WORD_TO_PDF (py "report.docx") (20 * 1024 * 1024) s
              eq_refl H1 H4 eq_refl H3 H2 eq_refl) as (_ & _ & _ & Hacc).
  split; [apply Hacc; vm_compute; discriminate | vm_compute; reflexivity].
Defined.

(** C6 at a text file, and at a Word path with no file behind it. *)
Lemma C6_witness :
  let w := deployment (Docx sample_paragraphs) None in
  (word_ext_ok (py "temp/notes.txt") = false
   /\ word_ext_ok (py "temp/missing.docx") = true
   /\ fs fresh_state !! resolve w (py "temp/missing.docx") = None)
  /\ (exists e,
        outcome (word_to_pdf w (file_converter w) (py "temp/notes.txt"))
          fresh_state = Raise e
        /\ exn_cls e = ValueError)
  /\ (exists e,
        outcome (word_to_pdf w (file_converter w) (py "temp/missing.docx"))
          fresh_state = Raise e
        /\ exn_cls e = FileNotFoundError).
Proof.
  cbv zeta.
  set (w := deployment (Docx sample_paragraphs) None).
  assert (H1 : word_ext_ok (py "temp/notes.txt") = false)
    by (vm_compute; reflexivity).
  assert (H2 : word_ext_ok (py "temp/missing.docx") = true)
    by (vm_compute; reflexivity).
  assert (H3 : fs fresh_state !! resolve w (py "temp/missing.docx") = None)
    by (vm_compute; reflexivity).
  split; [repeat split; assumption|].
  split.
  - destruct (C6_validation_order w (file_converter w) (py "temp/notes.txt")
                fresh_state) as (Hv & _).
    destruct (Hv H1) as (e & He & Hc & _). exists e. split; assumption.
  - destruct (C6_validation_order w (file_converter w)
                (py "temp/missing.docx") fresh_state) as (_ & Hn & _).
    destruct (Hn H2 H3) as (e & He & Hc & _). exists e. split; assumption.
Defined.

(** C8 at a file whose removal is denied: no exception, the file stays. *)
Lemma C8_witness :
  let w := deployment (Docx sample_paragraphs) (Some permission_denied) in
  let s := with_file (py "/srv/bot/temp/a.pdf") (PdfFile []) fresh_state in
  is_Some (fs s !! resolve w (py "temp/a.pdf"))
  /\ outcome (cleanup_temp_files w (file_converter w) (py "temp/a.pdf")) s
     = Ret tt
  /\ fs (final (cleanup_temp_files w (file_converter w) (py "temp/a.pdf")) s)
     = fs s.
Proof.
  cbv zeta.
  set (w := deployment (Docx sample_paragraphs) (Some permission_denied)).
  set (s := with_file (py "/srv/bot/temp/a.pdf") (PdfFile []) fresh_state).
  assert (H : is_Some (fs s !! resolve w (py "temp/a.pdf")))
    by (vm_compute; eexists; reflexivity).
  split; [exact H|].
  destruct (C8_cleanup_best_effort w (file_converter w) (py "temp/a.pdf") s)
    as (Hret & _ & Hex).
  split; [exact Hret|]. destruct (Hex H) as (_ & Hfs). exact Hfs.
Defined.

(** C9 at a payload that is no token, in a session with a selection. *)
Lemma C9_witness :
  let w := deployment (Docx sample_paragraphs) None in
  let s := with_selection WORD_TO_PDF fresh_state in
  user_data (final (button_callback w (Some (py "convert_all"))) s)
  = user_data s
  /\ events_of (button_callback w (Some (py "convert_all"))) s = [EvAnswer]
  /\ user_data (final (button_callback w (Some PDF_TO_WORD)) s)
     = <[KEY := PDF_TO_WORD]> (user_data s).
Proof.
  cbv zeta.
  set (w := deployment (Docx sample_paragraphs) None).
  set (s := with_selection WORD_TO_PDF fresh_state).
  destruct (C9_button_callback w (Some (py "convert_all")) s) as (Hk & _).
  destruct (C9_button_callback w (Some PDF_TO_WORD) s) as (_ & Hset).
  destruct Hk as (Ha & Hb); [vm_compute; discriminate.. |].
  split; [exact Ha|]. split; [exact Hb|].
  apply Hset; [right; reflexivity | reflexivity | vm_compute; reflexivity].
Defined.


(** ** Further properties of the handlers *)

Lemma outcome_reply_text w text s :
  outcome (reply_text w text) s
  = match w_reply w text with Some e => Raise e | None => Ret tt end.
Proof.
  unfold outcome, reply_text, external, mbind, M_bind, bind. cbn.
  destruct (w_reply w text); done.
Qed.

Lemma events_of_reply_text w text s :
  events_of (reply_text w text) s = [EvReply text].
Proof. apply events_of_extends. rewrite reply_text_final. done. Qed.

(** X1. The document handler attempts a download only for a document that
    passed every check: a selection is set, the file has a name, the name
    passes the extension test of the selection, and the reported size is at
    most 20 MiB. *)
Theorem handle_document_downloads_only_validated
    (w : World) (update : Update) (s : State) :
  download_attempted (events_of (handle_document w update) s) = true ->
  exists doc ct name size,
    message_document update = Some doc
    /\ user_data s !! KEY = Some ct /\ ct <> []
    /\ file_name doc = Some name /\ name <> []
    /\ dispatcher_ext_ok ct name = true
    /\ file_size doc = Some size /\ size <= max_size.
Proof.
  intros Hdl.
  assert (Hreply : forall text,
            handle_document w update s = reply_text w text s -> False).
  { intros text Heq. unfold events_of, final in Hdl. rewrite Heq in Hdl.
    change (download_attempted (events_of (reply_text w text) s) = true) in Hdl.
    rewrite events_of_reply_text in Hdl. done. }
  destruct (message_document update) as [doc|] eqn:Hdoc.
  2:{ destruct (Hreply MSG_NO_DOCUMENT). unfold handle_document.
      rewrite Hdoc. done. }
  destruct (user_data s !! KEY) as [ct|] eqn:Hsel.
  2:{ destruct (Hreply MSG_SELECT_FIRST). unfold handle_document.
      rewrite Hdoc. unfold mbind, M_bind, bind. cbn. rewrite Hsel. done. }
  destruct ct as [|c ct].
  { destruct (Hreply MSG_SELECT_FIRST). unfold handle_document.
    rewrite Hdoc. unfold mbind, M_bind, bind. cbn. rewrite Hsel. done. }
  destruct (file_name doc) as [name|] eqn:Hname.
  2:{ destruct (Hreply MSG_NO_NAME). unfold handle_document.
      rewrite Hdoc. unfold mbind, M_bind, bind. cbn.
      rewrite Hsel, Hname. done. }
  destruct name as [|n name].
  { destruct (Hreply MSG_NO_NAME). unfold handle_document.
    rewrite Hdoc. unfold mbind, M_bind, bind. cbn.
    rewrite Hsel, Hname. done. }
  destruct (dispatcher_ext_ok (c :: ct) (n :: name)) eqn:Hext.
  2:{ destruct (Hreply (mismatch_message (c :: ct))).
      unfold handle_document. rewrite Hdoc.
      unfold mbind, M_bind, bind. cbn. rewrite Hsel, Hname. cbn.
      unfold dispatcher_ext_ok, mismatch_message in *.
      destruct (str_eqb (c :: ct) WORD_TO_PDF).
      - rewrite Hext. done.
      - destruct (str_eqb (c :: ct) PDF_TO_WORD); [|done].
        rewrite Hext. done. }
  destruct (file_size doc) as [size|] eqn:Hsize.
  2:{ exfalso. unfold events_of, final, handle_document in Hdl.
      rewrite Hdoc in Hdl. unfold mbind, M_bind, bind in Hdl. cbn in Hdl.
      rewrite Hsel, Hname, Hsize in Hdl. cbn in Hdl.
      unfold dispatcher_ext_ok in Hext.
      destruct (str_eqb (c :: ct) WORD_TO_PDF).
      - rewrite Hext in Hdl. cbn in Hdl. rewrite drop_all in Hdl. done.
      - destruct (str_eqb (c :: ct) PDF_TO_WORD);
          [rewrite Hext in Hdl|]; cbn in Hdl; rewrite drop_all in Hdl; done. }
  exists doc, (c :: ct), (n :: name), size.
  repeat (split; [done|]).
  destruct (N.ltb_spec max_size size) as [Hlt|Hle]; [|done].
  destruct (Hreply MSG_TOO_LARGE).
  rewrite (handle_document_checked w update doc (c :: ct) (n :: name) size s)
    by done.
  apply N.ltb_lt in Hlt. rewrite Hlt. done.
Qed.

(** X2. A document that passed the selection, name and extension checks
    but reports no size makes the handler raise [TypeError] at the size
    comparison: nothing is sent to the user, nothing is downloaded, and the
    state is left untouched. *)
Theorem handle_document_without_size
    (w : World) (update : Update) (doc : TgDocument) (ct name : pystr)
    (s : State) :
  message_document update = Some doc ->
  user_data s !! KEY = Some ct -> ct <> [] ->
  file_name doc = Some name -> name <> [] ->
  dispatcher_ext_ok ct name = true ->
  file_size doc = None ->
  (exists e, outcome (handle_document w update) s = Raise e
             /\ exn_cls e = TypeError)
  /\ final (handle_document w update) s = s
  /\ events_of (handle_document w update) s = [].
Proof.
  intros Hdoc Hsel Hct Hname Hne Hext Hsize.
  assert (Hrun : exists e, handle_document w update s = (Raise e, s)
                           /\ exn_cls e = TypeError).
  { eexists. split.
    - unfold handle_document. rewrite Hdoc.
      unfold mbind at 1, M_bind at 1, bind at 1. cbn.
      rewrite Hsel, Hname, Hsize. cbn.
      rewrite (truthy_true ct Hct), (truthy_true name Hne). cbn.
      unfold dispatcher_ext_ok in Hext.
      destruct (str_eqb ct WORD_TO_PDF).
      + rewrite Hext. reflexivity.
      + destruct (str_eqb ct PDF_TO_WORD); [rewrite Hext|]; reflexivity.
    - reflexivity. }
  destruct Hrun as (e & Hrun & He).
  unfold outcome, events_of, final. rewrite Hrun. cbn.
  split; [eauto|]. split; [done | apply drop_all].
Qed.

(** X3. The callback handler never touches a file and never starts a
    download; and when it raises, because answering the query or sending
    the prompt failed, the selection is what it was: the prompt is sent
    before the selection is stored. *)
Theorem button_callback_failure_keeps_selection
    (w : World) (data : option pystr) (s : State) :
  fs (final (button_callback w data) s) = fs s
  /\ download_attempted (events_of (button_callback w data) s) = false
  /\ (forall e, outcome (button_callback w data) s = Raise e ->
                user_data (final (button_callback w data) s) = user_data s).
Proof.
  unfold events_of, outcome, final, button_callback, reply_text, external,
    mbind, M_bind, bind.
  cbn. destruct (w_answer w); cbn.
  { rewrite drop_app_length. done. }
  destruct (bool_decide (data = Some WORD_TO_PDF)); cbn.
  { destruct (w_reply w PROMPT_WORD); cbn;
      rewrite <- app_assoc, drop_app_length; done. }
  destruct (bool_decide (data = Some PDF_TO_WORD)); cbn.
  { destruct (w_reply w PROMPT_PDF); cbn;
      rewrite <- app_assoc, drop_app_length; done. }
  rewrite drop_app_length. done.
Qed.


(** X5. Pressing one button and then another, both handlers completing,
    leaves the selection of the second press: the first is overwritten. *)
Theorem button_callback_last_press_wins
    (w : World) (t1 t2 : pystr) (s : State) :
  t1 = WORD_TO_PDF \/ t1 = PDF_TO_WORD ->
  t2 = WORD_TO_PDF \/ t2 = PDF_TO_WORD ->
  w_answer w = None ->
  (forall text, w_reply w text = None) ->
  user_data (final (button_callback w (Some t2))
               (final (button_callback w (Some t1)) s))
  = <[KEY := t2]> (user_data s).
Proof.
  intros H1 H2 Ha Hr.
  assert (Hone : forall t s0, t = WORD_TO_PDF \/ t = PDF_TO_WORD ->
            user_data (final (button_callback w (Some t)) s0)
            = <[KEY := t]> (user_data s0)).
  { intros t s0 Ht.
    unfold final, button_callback, reply_text, external, mbind, M_bind, bind.
    cbn. rewrite Ha. cbn.
    destruct Ht as [-> | ->].
    - rewrite bool_decide_eq_true_2 by done. cbn. rewrite Hr. done.
    - rewrite bool_decide_eq_false_2 by done.
      rewrite bool_decide_eq_true_2 by done. cbn. rewrite Hr. done. }
  rewrite (Hone t2 _ H2), (Hone t1 _ H1). apply insert_insert_eq.
Qed.

(** ** Further properties of the conversion service *)

Lemma cleanup_missing_noop w self path s :
  fs s !! resolve w path = None ->
  final (cleanup_temp_files w self path) s = s.
Proof.
  intros Hmiss.
  unfold final, cleanup_temp_files, try_except, os_path_exists,
    mbind, M_bind, bind.
  cbn. rewrite Hmiss. cbn. destruct s; done.
Qed.

(** X6. When the removal succeeds, [cleanup_temp_files] leaves the path
    absent, and cleaning the same path again does nothing: no second call
    of [os.remove], no log entry, the same state. *)
Theorem cleanup_temp_files_idempotent
    (w : World) (self : FileConverter) (path : pystr) (s : State) :
  w_remove w path = None ->
  fs (final (cleanup_temp_files w self path) s) !! resolve w path = None
  /\ final (cleanup_temp_files w self path)
       (final (cleanup_temp_files w self path) s)
     = final (cleanup_temp_files w self path) s.
Proof.
  intros Hrm.
  assert (Hgone : fs (final (cleanup_temp_files w self path) s)
                    !! resolve w path = None).
  { unfold final, cleanup_temp_files, try_except, os_path_exists, os_remove,
      mbind, M_bind, bind.
    cbn. destruct (fs s !! resolve w path) eqn:E; cbn; [|done].
    rewrite Hrm. cbn. apply lookup_delete_eq. }
  split; [exact Hgone | apply cleanup_missing_noop; exact Hgone].
Qed.

(** X7. For a path with the extension .pdf whose file exists, when the
    conversion engine completes, [pdf_to_word] returns the path
    <temp_dir>/<stem>.docx, that file holds what the engine produced, every
    other file is as before, and nothing is logged as an error. *)
Theorem pdf_to_word_success
    (w : World) (self : FileConverter) (path : pystr) (c : FileContent)
    (s : State) :
  let output :=
    Path_str (Path_div (temp_dir self)
                (Path_stem (Path_of path) ++ py ".docx")) in
  pdf_ext_ok path = true ->
  fs s !! resolve w path = Some c ->
  w_pdf2docx w c = IODone ->
  outcome (pdf_to_word w self path) s = Ret output
  /\ fs (final (pdf_to_word w self path) s) !! resolve w output
     = Some (w_pdf2docx_result w c)
  /\ (forall k, k <> resolve w output ->
                fs (final (pdf_to_word w self path) s) !! k = fs s !! k)
  /\ events_of (pdf_to_word w self path) s = [].
Proof.
  intros output Hext Hfile Hconv.
  assert (Hrun : pdf_to_word w self path s
                 = (Ret output,
                    final (set_fs (<[resolve w output := w_pdf2docx_result w c]>
                                     (fs s))) s)).
  { unfold pdf_to_word, try_except, pdf_ext_ok in *. rewrite Hext.
    unfold os_path_exists, os_path_getsize, pdf2docx_convert, open_rb,
      write_file, mbind, M_bind, bind.
    cbn. repeat (rewrite Hfile; cbn). rewrite Hconv. cbn.
    fold output. rewrite lookup_insert_eq. done. }
  unfold outcome, events_of, final at 1 2 3. rewrite Hrun. cbn.
  split; [done|]. split; [apply lookup_insert_eq|].
  split; [intros k Hk; apply lookup_insert_ne; done | apply drop_all].
Qed.

(** X9. A paragraph that is not blank but has no code point below 128
    still gives a text block, an empty one; a blank paragraph gives none. *)
Theorem process_paragraph_edge_cases (pdf : FPDF) (paragraph : pystr) :
  (non_blank paragraph = false ->
     process_paragraph pdf paragraph = pdf)
  /\ (non_blank paragraph = true ->
      Forall (fun c => 128 <= c) paragraph ->
      fpdf_cells (process_paragraph pdf paragraph) = fpdf_cells pdf ++ [[]]).
Proof.
  unfold process_paragraph. rewrite strip_non_blank. split.
  - intros ->. done.
  - intros -> Hall. cbn. f_equal. f_equal.
    induction Hall as [|c p Hc _ IH]; cbn; [done|].
    apply N.ltb_ge in Hc. rewrite Hc. exact IH.
Qed.

(** [FileConverter.__init__] creates <cwd>/temp and returns the
    converter the handlers use; when the directory cannot be created it
    logs the error and raises the same exception. *)
Theorem FileConverter_init_outcome (w : World) (s : State) :
  let dir := Path_str (Path_div (Path_of (w_cwd w)) (py "temp")) in
  match w_mkdir w dir with
  | None =>
      outcome (FileConverter_init w) s = Ret (file_converter w)
      /\ events_of (FileConverter_init w) s = [EvMkdir dir]
  | Some e =>
      outcome (FileConverter_init w) s = Raise e
      /\ events_of (FileConverter_init w) s
         = [EvMkdir dir;
            EvLogError (py "Failed to create temp directory: " ++ exn_msg e)]
  end
  /\ fs (final (FileConverter_init w) s) = fs s.
Proof.
  intros dir.
  unfold outcome, events_of, final, FileConverter_init, try_except, external,
    logger_error, mbind, M_bind, bind.
  cbn. fold dir. destruct (w_mkdir w dir); cbn.
  - rewrite <- app_assoc, drop_app_length. done.
  - rewrite drop_app_length. done.
Qed.

(** ** The transfer job, end to end *)

Lemma transfer_except_returns w e s :
  (forall text, w_reply w text = None) ->
  outcome (transfer_except w e) s = Ret tt.
Proof.
  intros Hr.
  unfold outcome, transfer_except, reply_text, external, logger_error,
    mbind, M_bind, bind.
  destruct (exn_cls e); cbn; rewrite Hr; done.
Qed.

Lemma cleanup_temp_files_returns w self path s :
  outcome (cleanup_temp_files w self path) s = Ret tt.
Proof.
  unfold outcome, cleanup_temp_files, try_except, os_path_exists, os_remove,
    logger_error, mbind, M_bind, bind.
  cbn. destruct (fs s !! resolve w path); cbn; [|done].
  destruct (w_remove w path); done.
Qed.

Lemma transfer_finally_returns w s :
  outcome (transfer_finally w) s = Ret tt.
Proof.
  unfold outcome, transfer_finally, os_path_exists, mbind, M_bind, bind.
  cbn.
  assert (Hc : forall p s0,
            cleanup_temp_files w (file_converter w) p s0
            = (Ret tt, final (cleanup_temp_files w (file_converter w) p) s0)).
  { intros p s0. pose proof (cleanup_temp_files_returns w (file_converter w) p s0) as H.
    unfold outcome, final in *.
    destruct (cleanup_temp_files w (file_converter w) p s0) as [r s1].
    cbn in *. rewrite H. done. }
  destruct (download_path s) as [p|]; cbn.
  - destruct (bool_decide _); cbn; rewrite ?Hc; cbn;
      (destruct (output_path s) as [out|]; cbn; [|done];
       destruct (truthy out); cbn; [|done];
       destruct (bool_decide _); cbn; rewrite ?Hc; done).
  - destruct (output_path s) as [out|]; cbn; [|done].
    destruct (truthy out); cbn; [|done].
    destruct (bool_decide _); cbn; rewrite ?Hc; done.
Qed.

(** X10. As long as the replies to the user get through, a transfer job
    never raises: whatever fails inside it, the directory creation, the
    download, the conversion or the upload, the job ends normally. *)
Theorem transfer_job_never_raises
    (w : World) (chat : N) (ct fid name : pystr) (s : State) :
  (forall text, w_reply w text = None) ->
  outcome (transfer_job w chat ct fid name) s = Ret tt.
Proof.
  intros Hr.
  unfold outcome, transfer_job, try_finally, try_except, set_download_path,
    set_output_path, mbind, M_bind, bind.
  cbn.
  destruct (transfer_body w chat ct fid name _) as [[[]|e] s1]; cbn.
  - pose proof (transfer_finally_returns w s1) as Hf. unfold outcome in Hf.
    destruct (transfer_finally w s1) as [rf s2]. cbn in Hf. rewrite Hf. done.
  - pose proof (transfer_except_returns w e s1 Hr) as He. unfold outcome in He.
    destruct (transfer_except w e s1) as [re s2]. cbn in He. rewrite He.
    pose proof (transfer_finally_returns w s2) as Hf. unfold outcome in Hf.
    destruct (transfer_finally w s2) as [rf s3]. cbn in Hf. rewrite Hf. done.
Qed.

Lemma word_to_pdf_run w self path paragraphs s :
  let output :=
    Path_str (Path_div (temp_dir self)
                (Path_stem (Path_of path) ++ py ".pdf")) in
  word_ext_ok path = true ->
  fs s !! resolve w path = Some (Docx paragraphs) ->
  w_fpdf_output w output = IODone ->
  word_to_pdf w self path s
  = (Ret output,
     final (set_fs (<[resolve w output :=
                       PdfFile (List.map (List.filter (fun c => c <? 128))
                                  (List.filter non_blank paragraphs))]>
                      (fs s))) s).
Proof.
  intros output Hext Hfile Hout.
  unfold word_to_pdf, try_except, word_ext_ok in *. rewrite Hext.
  unfold os_path_exists, os_path_getsize, docx_Document, FPDF_output,
    write_file, mbind, M_bind, bind.
  cbn. repeat (rewrite Hfile; cbn).
  fold output. rewrite Hout. cbn.
  rewrite lookup_insert_eq. cbn.
  rewrite process_paragraphs_cells. done.
Qed.

Lemma transfer_finally_extends w : keeps extends (transfer_finally w).
Proof. apply keeps_transfer_finally; eauto with keeps. Qed.

Lemma pdf_to_word_rejects_run w self path c s :
  pdf_ext_ok path = false ->
  fs s !! resolve w path = Some c ->
  let e := {| exn_cls := ValueError;
              exn_msg := py "Invalid file extension: "
                         ++ lower (Path_suffix (Path_of path))
                         ++ py ". Expected .pdf" |} in
  pdf_to_word w self path s
  = (Raise e,
     final (emit (EvLogError (py "Input file size: "
                              ++ str_of_int (w_getsize w c) ++ py " bytes")))
       (final (emit (EvLogError (py "Error converting PDF to Word: "
                                 ++ exn_msg e))) s)).
Proof.
  intros Hext Hfile e.
  unfold pdf_to_word, try_except, pdf_ext_ok in *. rewrite Hext.
  unfold log_and_reraise.
  unfold os_path_exists, os_path_getsize, logger_error, mbind, M_bind, bind.
  cbn. repeat (rewrite Hfile; cbn). done.
Qed.

(** X12. The dispatcher tests how the file name ends, the converter tests
    the suffix pathlib gives, and the two can disagree (a file called
    ".pdf" ends in .pdf but has no suffix).  When a PDF job passes the
    dispatcher and the converter rejects the extension, the job still
    ends normally: the file is downloaded, the converter's [ValueError] is
    logged, and the user receives the validation-error reply quoting the
    converter's message; no document is sent and the download is cleaned
    up. *)
Theorem transfer_job_reports_rejected_extension
    (w : World) (chat : N) (ct fid name : pystr) (s : State) :
  let download := job_download_path name in
  let e := {| exn_cls := ValueError;
              exn_msg := py "Invalid file extension: "
                         ++ lower (Path_suffix (Path_of download))
                         ++ py ". Expected .pdf" |} in
  str_eqb ct WORD_TO_PDF = false ->
  pdf_ext_ok download = false ->
  w_mkdir w (py "temp") = None ->
  w_get_file w fid = None ->
  w_download w fid = IODone ->
  (forall text, w_reply w text = None) ->
  w_remove w download = None ->
  outcome (transfer_job w chat ct fid name) s = Ret tt
  /\ events_of (transfer_job w chat ct fid name) s
     = [EvMkdir (py "temp"); EvGetFile fid; EvDownload fid download;
        EvReply MSG_CONVERTING;
        EvLogError (py "Error converting PDF to Word: " ++ exn_msg e);
        EvLogError (py "Input file size: "
                    ++ str_of_int (w_getsize w (w_remote w fid)) ++ py " bytes");
        EvLogError (py "Validation error: " ++ exn_msg e);
        EvReply (MSG_VALUE_ERROR e);
        EvRemove download]
  /\ fs (final (transfer_job w chat ct fid name) s)
     = delete (resolve w download) (fs s).
Proof.
  intros download e Hct Hext Hmk Hget Hdl Hrep Hrm.
  unfold download, job_download_path in *.
  set (dl := Path_str (Path_div (Path_of (py "temp")) name)) in *.
  assert (Hrun : exists s2,
            transfer_job w chat ct fid name s = (Ret tt, s2)
            /\ trace s2 = trace s ++
                 [EvMkdir (py "temp"); EvGetFile fid; EvDownload fid dl;
                  EvReply MSG_CONVERTING;
                  EvLogError (py "Error converting PDF to Word: " ++ exn_msg e);
                  EvLogError (py "Input file size: "
                              ++ str_of_int (w_getsize w (w_remote w fid))
                              ++ py " bytes");
                  EvLogError (py "Validation error: " ++ exn_msg e);
                  EvReply (MSG_VALUE_ERROR e);
                  EvRemove dl]
            /\ fs s2 = delete (resolve w dl) (fs s)).
  { unfold transfer_job, try_finally, try_except, transfer_body, external,
      reply_text, external, write_file, os_path_exists, os_path_getsize,
      open_rb, mbind, M_bind, bind.
    change (Path_str (Path_of (py "temp"))) with (py "temp").
    fold dl. cbn. rewrite Hmk. cbn. rewrite Hget. cbn. rewrite Hdl. cbn.
    repeat (rewrite lookup_insert_eq; cbn).
    rewrite Hrep. cbn. rewrite Hct.
    erewrite (pdf_to_word_rejects_run w (file_converter w) dl (w_remote w fid));
      [| exact Hext | apply lookup_insert_eq ].
    cbn.
    unfold transfer_except, reply_text, external, logger_error,
      mbind, M_bind, bind.
    cbn. rewrite Hrep. cbn.
    unfold transfer_finally, cleanup_temp_files, try_except, os_path_exists,
      os_remove, mbind, M_bind, bind.
    cbn. fold dl. repeat (rewrite lookup_insert_eq; cbn).
    rewrite Hrm. cbn.
    eexists. split; [reflexivity|]. cbn. split.
    - rewrite <- !app_assoc. done.
    - apply delete_insert_eq. }
  destruct Hrun as (s2 & Hrun & Htr & Hfs).
  unfold outcome, events_of, final. rewrite Hrun. cbn.
  split; [done|]. split; [rewrite Htr; apply drop_app_length | exact Hfs].
Qed.

(** X13. When the download call returns but no file appears at the
    download path, the job raises [FileNotFoundError] for itself, logs it,
    tells the user the file could not be processed, and ends normally; no
    conversion is started, nothing is removed and no file is changed. *)
Theorem transfer_job_reports_missing_download
    (w : World) (chat : N) (ct fid name : pystr) (s : State) :
  let download := job_download_path name in
  fs s !! resolve w download = None ->
  w_mkdir w (py "temp") = None ->
  w_get_file w fid = None ->
  w_download w fid = IOSilent ->
  w_reply w MSG_NOT_PROCESSED = None ->
  outcome (transfer_job w chat ct fid name) s = Ret tt
  /\ events_of (transfer_job w chat ct fid name) s
     = [EvMkdir (py "temp"); EvGetFile fid; EvDownload fid download;
        EvLogError (py "File not found error: "
                    ++ py "Downloaded file not found at " ++ download);
        EvReply MSG_NOT_PROCESSED]
  /\ fs (final (transfer_job w chat ct fid name) s) = fs s.
Proof.
  intros download Hfresh Hmk Hget Hdl Hrep.
  unfold download, job_download_path in *.
  set (dl := Path_str (Path_div (Path_of (py "temp")) name)) in *.
  assert (Hrun : exists s2,
            transfer_job w chat ct fid name s = (Ret tt, s2)
            /\ trace s2 = trace s ++
                 [EvMkdir (py "temp"); EvGetFile fid; EvDownload fid dl;
                  EvLogError (py "File not found error: "
                              ++ py "Downloaded file not found at " ++ dl);
                  EvReply MSG_NOT_PROCESSED]
            /\ fs s2 = fs s).
  { unfold transfer_job, try_finally, try_except, transfer_body, external,
      reply_text, external, write_file, os_path_exists, os_path_getsize,
      open_rb, mbind, M_bind, bind.
    change (Path_str (Path_of (py "temp"))) with (py "temp").
    fold dl. cbn. rewrite Hmk. cbn. rewrite Hget. cbn. rewrite Hdl. cbn.
    rewrite Hfresh. cbn.
    unfold transfer_except, reply_text, external, logger_error,
      mbind, M_bind, bind.
    cbn. rewrite Hrep. cbn.
    unfold transfer_finally, cleanup_temp_files, try_except, os_path_exists,
      os_remove, mbind, M_bind, bind.
    cbn. fold dl. rewrite Hfresh. cbn.
    eexists. split; [reflexivity|]. cbn. split; [|done].
    rewrite <- !app_assoc. done. }
  destruct Hrun as (s2 & Hrun & Htr & Hfs).
  unfold outcome, events_of, final. rewrite Hrun. cbn.
  split; [done|]. split; [rewrite Htr; apply drop_app_length | exact Hfs].
Qed.

(** X14. When the download itself fails with an error that is neither a
    missing file nor a value error, the job logs it, sends the generic
    error reply and ends normally; a truncated file the download left
    behind is removed, so the file system is as before the job. *)
Theorem transfer_job_reports_failed_download
    (w : World) (chat : N) (ct fid name : pystr) (e : exn) (partial : bool)
    (s : State) :
  let download := job_download_path name in
  exn_cls e = OtherException ->
  fs s !! resolve w download = None ->
  w_mkdir w (py "temp") = None ->
  w_get_file w fid = None ->
  w_download w fid = IOFail e partial ->
  w_reply w MSG_GENERIC = None ->
  w_remove w download = None ->
  outcome (transfer_job w chat ct fid name) s = Ret tt
  /\ events_of (transfer_job w chat ct fid name) s
     = [EvMkdir (py "temp"); EvGetFile fid; EvDownload fid download;
        EvLogError (py "Error processing document: " ++ exn_msg e);
        EvReply MSG_GENERIC]
       ++ (if partial then [EvRemove download] else [])
  /\ fs (final (transfer_job w chat ct fid name) s) = fs s.
Proof.
  intros download Hcls Hfresh Hmk Hget Hdl Hrep Hrm.
  unfold download, job_download_path in *.
  set (dl := Path_str (Path_div (Path_of (py "temp")) name)) in *.
  assert (Hrun : exists s2,
            transfer_job w chat ct fid name s = (Ret tt, s2)
            /\ trace s2 = trace s ++
                 [EvMkdir (py "temp"); EvGetFile fid; EvDownload fid dl;
                  EvLogError (py "Error processing document: " ++ exn_msg e);
                  EvReply MSG_GENERIC]
                 ++ (if partial then [EvRemove dl] else [])
            /\ fs s2 = fs s).
  { unfold transfer_job, try_finally, try_except, transfer_body, external,
      reply_text, external, write_file, os_path_exists, os_path_getsize,
      open_rb, mbind, M_bind, bind.
    change (Path_str (Path_of (py "temp"))) with (py "temp").
    fold dl. cbn. rewrite Hmk. cbn. rewrite Hget. cbn. rewrite Hdl. cbn.
    unfold transfer_except, reply_text, external, logger_error,
      mbind, M_bind, bind.
    unfold transfer_finally, cleanup_temp_files, try_except, os_path_exists,
      os_remove, mbind, M_bind, bind.
    destruct partial; cbn; rewrite Hcls; cbn; rewrite Hrep; cbn; fold dl.
    - repeat (rewrite lookup_insert_eq; cbn). rewrite Hrm. cbn.
      eexists. split; [reflexivity|]. cbn. split.
      + rewrite <- !app_assoc. done.
      + rewrite delete_insert_eq. apply delete_id. exact Hfresh.
    - rewrite Hfresh. cbn.
      eexists. split; [reflexivity|]. cbn. split; [|done].
      rewrite <- !app_assoc. done. }
  destruct Hrun as (s2 & Hrun & Htr & Hfs).
  unfold outcome, events_of, final. rewrite Hrun. cbn.
  split; [done|]. split; [rewrite Htr; apply drop_app_length | exact Hfs].
Qed.

(** ** The further properties at concrete inputs *)

Lemma handle_document_downloads_only_validated_witness :
  let w := deployment (Docx sample_paragraphs) None in
  let s := with_selection WORD_TO_PDF fresh_state in
  let update := upload (py "report.docx") 1000 in
  download_attempted (events_of (handle_document w update) s) = true
  /\ exists doc ct name size,
       message_document update = Some doc
       /\ user_data s !! KEY = Some ct /\ ct <> []
       /\ file_name doc = Some name /\ name <> []
       /\ dispatcher_ext_ok ct name = true
       /\ file_size doc = Some size /\ size <= max_size.
Proof.
  cbv zeta.
  assert (H : download_attempted
                (events_of (handle_document
                              (deployment (Docx sample_paragraphs) None)
                              (upload (py "report.docx") 1000))
                   (with_selection WORD_TO_PDF fresh_state)) = true)
    by (vm_compute; reflexivity).
  split; [exact H|].
  exact (handle_document_downloads_only_validated _ _ _ H).
Defined.

Lemma handle_document_without_size_witness :
  let w := deployment (Docx sample_paragraphs) None in
  let s := with_selection WORD_TO_PDF fresh_state in
  let update := upload_without_size (py "report.docx") in
  (user_data s !! KEY = Some WORD_TO_PDF
   /\ dispatcher_ext_ok WORD_TO_PDF (py "report.docx") = true)
  /\ final (handle_document w update) s = s
  /\ events_of (handle_document w update) s = [].
Proof.
  cbv zeta.
  set (w := deployment (Docx sample_paragraphs) None).
  set (s := with_selection WORD_TO_PDF fresh_state).
  assert (H1 : user_data s !! KEY = Some WORD_TO_PDF)
    by (vm_compute; reflexivity).
  assert (H2 : dispatcher_ext_ok WORD_TO_PDF (py "report.docx") = true)
    by (vm_compute; reflexivity).
  assert (H3 : py "report.docx" <> []) by (vm_compute; discriminate).
  assert (H4 : WORD_TO_PDF <> []) by (vm_compute; discriminate).
  split; [split; assumption|].
  destruct (handle_document_without_size w
              (upload_without_size (py "report.docx")) _ WORD_TO_PDF
              (py "report.docx") s eq_refl H1 H4 eq_refl H3 H2 eq_refl)
    as (_ & Ha & Hb).
  split; [exact Ha | exact Hb].
Defined.


Lemma button_callback_last_press_wins_witness :
  let w := deployment (Docx sample_paragraphs) None in
  user_data (final (button_callback w (Some PDF_TO_WORD))
               (final (button_callback w (Some WORD_TO_PDF)) fresh_state))
  = <[KEY := PDF_TO_WORD]> (user_data fresh_state).
Proof.
  exact (button_callback_last_press_wins
           (deployment (Docx sample_paragraphs) None) WORD_TO_PDF PDF_TO_WORD
           fresh_state (or_introl eq_refl) (or_intror eq_refl) eq_refl
           (fun _ => eq_refl)).
Defined.

Lemma cleanup_temp_files_idempotent_witness :
  let w := deployment (Docx sample_paragraphs) None in
  let s := with_file (py "/srv/bot/temp/a.pdf") (PdfFile []) fresh_state in
  let clean := cleanup_temp_files w (file_converter w) (py "temp/a.pdf") in
  is_Some (fs s !! resolve w (py "temp/a.pdf"))
  /\ fs (final clean s) !! resolve w (py "temp/a.pdf") = None
  /\ final clean (final clean s) = final clean s.
Proof.
  cbv zeta. split; [vm_compute; eexists; reflexivity|].
  exact (cleanup_temp_files_idempotent
           (deployment (Docx sample_paragraphs) None)
           (file_converter (deployment (Docx sample_paragraphs) None))
           (py "temp/a.pdf")
           (with_file (py "/srv/bot/temp/a.pdf") (PdfFile []) fresh_state)
           eq_refl).
Defined.

Lemma pdf_to_word_success_witness :
  let w := deployment (Docx sample_paragraphs) None in
  let s := with_file (py "/srv/bot/temp/test_document.pdf")
             (PdfFile sample_paragraphs) fresh_state in
  (pdf_ext_ok (py "temp/test_document.pdf") = true
   /\ fs s !! resolve w (py "temp/test_document.pdf")
      = Some (PdfFile sample_paragraphs))
  /\ outcome (pdf_to_word w (file_converter w) (py "temp/test_document.pdf")) s
     = Ret (py "/srv/bot/temp/test_document.docx").
Proof.
  cbv zeta.
  set (w := deployment (Docx sample_paragraphs) None).
  set (s := with_file (py "/srv/bot/temp/test_document.pdf")
              (PdfFile sample_paragraphs) fresh_state).
  assert (H1 : pdf_ext_ok (py "temp/test_document.pdf") = true)
    by (vm_compute; reflexivity).
  assert (H2 : fs s !! resolve w (py "temp/test_document.pdf")
               = Some (PdfFile sample_paragraphs))
    by (vm_compute; reflexivity).
  split; [split; assumption|].
  destruct (pdf_to_word_success w (file_converter w)
              (py "temp/test_document.pdf") (PdfFile sample_paragraphs) s
              H1 H2 eq_refl) as (Ha & _).
  exact Ha.
Defined.

Lemma process_paragraph_edge_cases_witness :
  process_paragraph FPDF_new [32; 160; 9] = FPDF_new
  /\ fpdf_cells (process_paragraph FPDF_new [1055; 1088; 1080; 1074; 1077; 1090])
     = [[]].
Proof.
  destruct (process_paragraph_edge_cases FPDF_new [32; 160; 9]) as (Ha & _).
  destruct (process_paragraph_edge_cases FPDF_new
              [1055; 1088; 1080; 1074; 1077; 1090]) as (_ & Hb).
  split; [apply Ha; vm_compute; reflexivity|].
  apply Hb; [vm_compute; reflexivity|].
  repeat constructor; vm_compute; discriminate.
Defined.

Lemma transfer_job_never_raises_witness :
  let w := with_send_document (deployment (Docx sample_paragraphs) None)
             (Some network_error) in
  outcome (transfer_job w 1 WORD_TO_PDF (py "file-1") (py "report.docx"))
    fresh_state = Ret tt.
Proof.
  exact (transfer_job_never_raises
           (with_send_document (deployment (Docx sample_paragraphs) None)
              (Some network_error))
           1 WORD_TO_PDF (py "file-1") (py "report.docx") fresh_state
           (fun _ => eq_refl)).
Defined.

Lemma transfer_job_reports_rejected_extension_witness :
  let w := deployment (Blob []) None in
  (dispatcher_ext_ok PDF_TO_WORD (py ".pdf") = true
   /\ pdf_ext_ok (job_download_path (py ".pdf")) = false)
  /\ outcome (transfer_job w 1 PDF_TO_WORD (py "file-1") (py ".pdf"))
       fresh_state = Ret tt
  /\ fs (final (transfer_job w 1 PDF_TO_WORD (py "file-1") (py ".pdf"))
           fresh_state) = delete (resolve w (job_download_path (py ".pdf"))) ∅.
Proof.
  cbv zeta.
  assert (H1 : dispatcher_ext_ok PDF_TO_WORD (py ".pdf") = true)
    by (vm_compute; reflexivity).
  assert (H2 : pdf_ext_ok (job_download_path (py ".pdf")) = false)
    by (vm_compute; reflexivity).
  split; [split; assumption|].
  destruct (transfer_job_reports_rejected_extension
              (deployment (Blob []) None) 1 PDF_TO_WORD (py "file-1")
              (py ".pdf") fresh_state eq_refl H2 eq_refl eq_refl eq_refl
              (fun _ => eq_refl) eq_refl) as (Ha & _ & Hc).
  split; [exact Ha | exact Hc].
Defined.

Lemma transfer_job_reports_missing_download_witness :
  let w := with_download (deployment (Docx sample_paragraphs) None) IOSilent in
  fs fresh_state !! resolve w (job_download_path (py "report.docx")) = None
  /\ events_of (transfer_job w 1 WORD_TO_PDF (py "file-1") (py "report.docx"))
       fresh_state
     = [EvMkdir (py "temp"); EvGetFile (py "file-1");
        EvDownload (py "file-1") (job_download_path (py "report.docx"));
        EvLogError (py "File not found error: "
                    ++ py "Downloaded file not found at "
                    ++ job_download_path (py "report.docx"));
        EvReply MSG_NOT_PROCESSED].
Proof.
  cbv zeta.
  assert (H : fs fresh_state
                !! resolve (with_download
                              (deployment (Docx sample_paragraphs) None) IOSilent)
                     (job_download_path (py "report.docx")) = None)
    by (vm_compute; reflexivity).
  split; [exact H|].
  destruct (transfer_job_reports_missing_download
              (with_download (deployment (Docx sample_paragraphs) None) IOSilent)
              1 WORD_TO_PDF (py "file-1") (py "report.docx") fresh_state
              H eq_refl eq_refl eq_refl eq_refl) as (_ & Hb & _).
  exact Hb.
Defined.

Lemma transfer_job_reports_failed_download_witness :
  let w := with_download (deployment (Docx sample_paragraphs) None)
             (IOFail network_error true) in
  fs fresh_state !! resolve w (job_download_path (py "report.docx")) = None
  /\ outcome (transfer_job w 1 WORD_TO_PDF (py "file-1") (py "report.docx"))
       fresh_state = Ret tt
  /\ fs (final (transfer_job w 1 WORD_TO_PDF (py "file-1") (py "report.docx"))
           fresh_state) = fs fresh_state.
Proof.
  cbv zeta.
  assert (H : fs fresh_state
                !! resolve (with_download
                              (deployment (Docx sample_paragraphs) None)
                              (IOFail network_error true))
                     (job_download_path (py "report.docx")) = None)
    by (vm_compute; reflexivity).
  split; [exact H|].
  destruct (transfer_job_reports_failed_download
              (with_download (deployment (Docx sample_paragraphs) None)
                 (IOFail network_error true))
              1 WORD_TO_PDF (py "file-1") (py "report.docx") network_error true
              fresh_state eq_refl H eq_refl eq_refl eq_refl eq_refl eq_refl)
    as (Ha & _ & Hc).
  split; [exact Ha | exact Hc].
Defined.

(** ** Case-insensitive extensions, in the handlers *)

Lemma lower_char_idem c : lower_char (lower_char c) = lower_char c.
Proof.
  unfold lower_char.
  destruct (N.leb_spec 65 c); destruct (N.leb_spec c 90); cbn; try done.
  - destruct (N.leb_spec 65 (c + 32)); destruct (N.leb_spec (c + 32) 90);
      cbn; try done; lia.
  - destruct (N.leb_spec 65 c); destruct (N.leb_spec c 90); cbn; try done; lia.
  - destruct (N.leb_spec 65 c); destruct (N.leb_spec c 90); cbn; try done; lia.
  - destruct (N.leb_spec 65 c); destruct (N.leb_spec c 90); cbn; try done; lia.
Qed.

Lemma lower_idem s : lower (lower s) = lower s.
Proof.
  unfold lower. rewrite map_map. apply map_ext. apply lower_char_idem.
Qed.

Lemma lower_nonempty (a b : pystr) : lower a = lower b -> a <> [] -> b <> [].
Proof. intros H Ha ->. destruct a; [done | discriminate]. Qed.

Lemma dispatcher_ext_ok_lower ct name :
  dispatcher_ext_ok ct (lower name) = dispatcher_ext_ok ct name.
Proof. unfold dispatcher_ext_ok. rewrite lower_idem. done. Qed.

Lemma word_ext_ok_lower path : word_ext_ok (lower path) = word_ext_ok path.
Proof. unfold word_ext_ok. rewrite Path_suffix_lower, lower_idem. done. Qed.

Lemma pdf_ext_ok_lower path : pdf_ext_ok (lower path) = pdf_ext_ok path.
Proof. unfold pdf_ext_ok. rewrite Path_suffix_lower, lower_idem. done. Qed.

(** What [handle_document] does with a named document of admissible size
    under one of the two selections: the dispatcher's extension test on
    the name decides between the mismatch reply and the transfer job. *)
Lemma handle_document_extension_verdict w chat fid name size ct s :
  ct = WORD_TO_PDF \/ ct = PDF_TO_WORD ->
  user_data s !! KEY = Some ct ->
  name <> [] -> size <= max_size ->
  if dispatcher_ext_ok ct name
  then handle_document w (document_update chat fid name size) s
       = transfer_job w chat ct fid name s
  else events_of (handle_document w (document_update chat fid name size)) s
       = [EvReply (mismatch_message ct)].
Proof.
  intros Hct Hsel Hne Hsize.
  assert (Hct' : ct <> []) by (destruct Hct as [-> | ->]; vm_compute; discriminate).
  destruct (dispatcher_ext_ok ct name) eqn:Hext.
  - rewrite (handle_document_checked w (document_update chat fid name size)
               {| file_id := fid; file_name := Some name;
                  file_size := Some size |} ct name size s
               eq_refl Hsel Hct' eq_refl Hne Hext eq_refl).
    apply N.ltb_ge in Hsize. rewrite Hsize. done.
  - apply events_of_extends.
    assert (Hrun : final (handle_document w (document_update chat fid name size)) s
                   = final (emit (EvReply (mismatch_message ct))) s).
    { rewrite <- (reply_text_final w). unfold final, handle_document.
      unfold mbind, M_bind, bind. cbn.
      rewrite Hsel. cbn. rewrite (truthy_true ct Hct'), (truthy_true name Hne).
      cbn. unfold dispatcher_ext_ok, mismatch_message in *.
      destruct Hct as [-> | ->].
      - rewrite str_eqb_refl in *. rewrite Hext. done.
      - rewrite tokens_differ, str_eqb_refl in *. rewrite Hext. done. }
    rewrite Hrun. done.
Qed.

Lemma pdf_to_word_run w self path c s :
  pdf_ext_ok path = true ->
  fs s !! resolve w path = Some c ->
  w_pdf2docx w c = IODone ->
  pdf_to_word w self path s
  = (Ret (converter_output self path (py ".docx")),
     final (set_fs (<[resolve w (converter_output self path (py ".docx"))
                      := w_pdf2docx_result w c]> (fs s))) s).
Proof.
  intros Hext Hfile Hconv.
  unfold pdf_to_word, try_except, pdf_ext_ok, converter_output in *.
  rewrite Hext.
  unfold os_path_exists, os_path_getsize, pdf2docx_convert, open_rb,
    write_file, mbind, M_bind, bind.
  cbn. repeat (rewrite Hfile; cbn). rewrite Hconv. cbn.
  rewrite lookup_insert_eq. done.
Qed.

(** What the extension validation of the converters does. *)
Lemma word_to_pdf_extension_verdict w self path s :
  if word_ext_ok path
  then forall ps,
         fs s !! resolve w path = Some (Docx ps) ->
         w_fpdf_output w (converter_output self path (py ".pdf")) = IODone ->
         outcome (word_to_pdf w self path) s
         = Ret (converter_output self path (py ".pdf"))
  else exists e, outcome (word_to_pdf w self path) s = Raise e
                 /\ exn_cls e = ValueError.
Proof.
  destruct (word_ext_ok path) eqn:Hext.
  - intros ps Hfile Hout. unfold outcome.
    rewrite (word_to_pdf_run w self path ps s Hext Hfile Hout). done.
  - eexists. unfold outcome, word_to_pdf, try_except.
    unfold word_ext_ok in Hext. rewrite Hext. cbn.
    split; [apply log_and_reraise_outcome | done].
Qed.

Lemma pdf_to_word_extension_verdict w self path s :
  if pdf_ext_ok path
  then forall c,
         fs s !! resolve w path = Some c ->
         w_pdf2docx w c = IODone ->
         outcome (pdf_to_word w self path) s
         = Ret (converter_output self path (py ".docx"))
  else exists e, outcome (pdf_to_word w self path) s = Raise e
                 /\ exn_cls e = ValueError.
Proof.
  destruct (pdf_ext_ok path) eqn:Hext.
  - intros c Hfile Hconv. unfold outcome.
    rewrite (pdf_to_word_run w self path c s Hext Hfile Hconv). done.
  - eexists. unfold outcome, pdf_to_word, try_except.
    unfold pdf_ext_ok in Hext. rewrite Hext. cbn.
    split; [apply log_and_reraise_outcome | done].
Qed.

(** C10. Extension matching is case-insensitive in the dispatcher and in
    both converters.  For two names that differ only in letter case, the
    tests on the lowercased name decide for both alike: [handle_document]
    either runs the transfer job for each of them or answers each with the
    extension-mismatch reply; [word_to_pdf] and [pdf_to_word] either
    convert each of them (given a readable file and a working library) or
    raise [ValueError] for each. *)
Theorem C10_case_insensitive (w : World) (a b : pystr) :
  lower a = lower b ->
  (forall chat fid size ct s,
     ct = WORD_TO_PDF \/ ct = PDF_TO_WORD ->
     user_data s !! KEY = Some ct ->
     a <> [] -> size <= max_size ->
     if dispatcher_ext_ok ct (lower a)
     then handle_document w (document_update chat fid a size) s
          = transfer_job w chat ct fid a s
          /\ handle_document w (document_update chat fid b size) s
             = transfer_job w chat ct fid b s
     else events_of (handle_document w (document_update chat fid a size)) s
          = [EvReply (mismatch_message ct)]
          /\ events_of (handle_document w (document_update chat fid b size)) s
             = [EvReply (mismatch_message ct)])
  /\ (forall self s,
        if word_ext_ok (lower a)
        then (forall ps,
                fs s !! resolve w a = Some (Docx ps) ->
                w_fpdf_output w (converter_output self a (py ".pdf")) = IODone ->
                outcome (word_to_pdf w self a) s
                = Ret (converter_output self a (py ".pdf")))
             /\ (forall ps,
                   fs s !! resolve w b = Some (Docx ps) ->
                   w_fpdf_output w (converter_output self b (py ".pdf")) = IODone ->
                   outcome (word_to_pdf w self b) s
                   = Ret (converter_output self b (py ".pdf")))
        else (exists e, outcome (word_to_pdf w self a) s = Raise e
                        /\ exn_cls e = ValueError)
             /\ (exists e, outcome (word_to_pdf w self b) s = Raise e
                           /\ exn_cls e = ValueError))
  /\ (forall self s,
        if pdf_ext_ok (lower a)
        then (forall c,
                fs s !! resolve w a = Some c -> w_pdf2docx w c = IODone ->
                outcome (pdf_to_word w self a) s
                = Ret (converter_output self a (py ".docx")))
             /\ (forall c,
                   fs s !! resolve w b = Some c -> w_pdf2docx w c = IODone ->
                   outcome (pdf_to_word w self b) s
                   = Ret (converter_output self b (py ".docx")))
        else (exists e, outcome (pdf_to_word w self a) s = Raise e
                        /\ exn_cls e = ValueError)
             /\ (exists e, outcome (pdf_to_word w self b) s = Raise e
                           /\ exn_cls e = ValueError)).
Proof.
  intros Hab. split; [|split].
  - intros chat fid size ct s Hct Hsel Ha Hsize.
    pose proof (lower_nonempty a b Hab Ha) as Hb.
    pose proof (handle_document_extension_verdict w chat fid a size ct s
                  Hct Hsel Ha Hsize) as Hva.
    pose proof (handle_document_extension_verdict w chat fid b size ct s
                  Hct Hsel Hb Hsize) as Hvb.
    rewrite <- (dispatcher_ext_ok_lower ct a) in Hva.
    rewrite <- (dispatcher_ext_ok_lower ct b), <- Hab in Hvb.
    destruct (dispatcher_ext_ok ct (lower a)); split; assumption.
  - intros self s.
    pose proof (word_to_pdf_extension_verdict w self a s) as Hva.
    pose proof (word_to_pdf_extension_verdict w self b s) as Hvb.
    rewrite <- (word_ext_ok_lower a) in Hva.
    rewrite <- (word_ext_ok_lower b), <- Hab in Hvb.
    destruct (word_ext_ok (lower a)); split; assumption.
  - intros self s.
    pose proof (pdf_to_word_extension_verdict w self a s) as Hva.
    pose proof (pdf_to_word_extension_verdict w self b s) as Hvb.
    rewrite <- (pdf_ext_ok_lower a) in Hva.
    rewrite <- (pdf_ext_ok_lower b), <- Hab in Hvb.
    destruct (pdf_ext_ok (lower a)); split; assumption.
Qed.

Lemma C10_witness :
  let w := deployment (Docx sample_paragraphs) None in
  let chosen_word := with_selection WORD_TO_PDF fresh_state in
  let chosen_pdf := with_selection PDF_TO_WORD fresh_state in
  (lower (py "REPORT.DOCX") = lower (py "report.docx")
   /\ lower (py "Report.PDF") = lower (py "report.pdf"))
  /\ (handle_document w
        (document_update 1 (py "file-1") (py "REPORT.DOCX") 1000) chosen_word
      = transfer_job w 1 WORD_TO_PDF (py "file-1") (py "REPORT.DOCX")
          chosen_word
      /\ download_attempted
           (events_of (handle_document w
              (document_update 1 (py "file-1") (py "REPORT.DOCX") 1000))
              chosen_word) = true)
  /\ (handle_document w
        (document_update 1 (py "file-2") (py "Report.PDF") 1000) chosen_pdf
      = transfer_job w 1 PDF_TO_WORD (py "file-2") (py "Report.PDF")
          chosen_pdf
      /\ download_attempted
           (events_of (handle_document w
              (document_update 1 (py "file-2") (py "Report.PDF") 1000))
              chosen_pdf) = true)
  /\ outcome (word_to_pdf w (file_converter w) (py "REPORT.DOCX"))
       (with_file (py "/srv/bot/REPORT.DOCX") (Docx sample_paragraphs)
          fresh_state)
     = Ret (py "/srv/bot/temp/REPORT.pdf")
  /\ outcome (pdf_to_word w (file_converter w) (py "Report.PDF"))
       (with_file (py "/srv/bot/Report.PDF") (PdfFile sample_paragraphs)
          fresh_state)
     = Ret (py "/srv/bot/temp/Report.docx").
Proof.
  cbv zeta.
  set (w := deployment (Docx sample_paragraphs) None).
  assert (L1 : lower (py "REPORT.DOCX") = lower (py "report.docx"))
    by (vm_compute; reflexivity).
  assert (L2 : lower (py "Report.PDF") = lower (py "report.pdf"))
    by (vm_compute; reflexivity).
  destruct (C10_case_insensitive w _ _ L1) as (D1 & W1 & _).
  destruct (C10_case_insensitive w _ _ L2) as (D2 & _ & P2).
  split; [split; assumption|].
  split; [|split; [|split]].
  - specialize (D1 1 (py "file-1") 1000 WORD_TO_PDF
                  (with_selection WORD_TO_PDF fresh_state)).
    assert (E : dispatcher_ext_ok WORD_TO_PDF (lower (py "REPORT.DOCX"))
                = true) by (vm_compute; reflexivity).
    rewrite E in D1.
    destruct D1 as [D1 _];
      [ left; reflexivity | vm_compute; reflexivity | discriminate
      | vm_compute; discriminate | ].
    split; [exact D1 | vm_compute; reflexivity].
  - specialize (D2 1 (py "file-2") 1000 PDF_TO_WORD
                  (with_selection PDF_TO_WORD fresh_state)).
    assert (E : dispatcher_ext_ok PDF_TO_WORD (lower (py "Report.PDF"))
                = true) by (vm_compute; reflexivity).
    rewrite E in D2.
    destruct D2 as [D2 _];
      [ right; reflexivity | vm_compute; reflexivity | discriminate
      | vm_compute; discriminate | ].
    split; [exact D2 | vm_compute; reflexivity].
  - specialize (W1 (file_converter w)
                  (with_file (py "/srv/bot/REPORT.DOCX")
                     (Docx sample_paragraphs) fresh_state)).
    assert (E : word_ext_ok (lower (py "REPORT.DOCX")) = true)
      by (vm_compute; reflexivity).
    rewrite E in W1. destruct W1 as [W1 _].
    rewrite (W1 sample_paragraphs);
      [ vm_compute; reflexivity | vm_compute; reflexivity | reflexivity ].
  - specialize (P2 (file_converter w)
                  (with_file (py "/srv/bot/Report.PDF")
                     (PdfFile sample_paragraphs) fresh_state)).
    assert (E : pdf_ext_ok (lower (py "Report.PDF")) = true)
      by (vm_compute; reflexivity).
    rewrite E in P2. destruct P2 as [P2 _].
    rewrite (P2 (PdfFile sample_paragraphs));
      [ vm_compute; reflexivity | vm_compute; reflexivity | reflexivity ].
Defined.

(** ** A Word extension on a file that is not a Word document *)

(** X8. A file with an accepted Word extension that python-docx cannot
    read as a Word document makes [word_to_pdf] raise, after the error and
    the size of the input were logged: [ValueError] when the file is a
    package of another kind (a renamed .docm or .xlsx), the library's
    package-not-found error when it is no package at all (a legacy binary
    .doc, a PDF).  No PDF is written and no file is changed. *)
Theorem word_to_pdf_rejects_non_word_file
    (w : World) (self : FileConverter) (path : pystr) (c : FileContent)
    (s : State) :
  word_ext_ok path = true ->
  fs s !! resolve w path = Some c ->
  (forall ps, c <> Docx ps) ->
  (exists e, outcome (word_to_pdf w self path) s = Raise e
             /\ exn_cls e = match c with
                            | OtherPackage _ => ValueError
                            | _ => OtherException
                            end
             /\ events_of (word_to_pdf w self path) s
                = [EvLogError (py "Error converting Word to PDF: " ++ exn_msg e);
                   EvLogError (py "Input file size: "
                               ++ str_of_int (w_getsize w c) ++ py " bytes")])
  /\ fs (final (word_to_pdf w self path) s) = fs s.
Proof.
  intros Hext Hfile Hnot.
  assert (Hrun : exists e s',
            word_to_pdf w self path s = (Raise e, s')
            /\ exn_cls e = match c with
                           | OtherPackage _ => ValueError
                           | _ => OtherException
                           end
            /\ fs s' = fs s
            /\ trace s' = trace s ++
                 [EvLogError (py "Error converting Word to PDF: " ++ exn_msg e);
                  EvLogError (py "Input file size: "
                              ++ str_of_int (w_getsize w c) ++ py " bytes")]).
  { unfold word_to_pdf, try_except, word_ext_ok in *. rewrite Hext.
    unfold log_and_reraise.
    unfold os_path_exists, os_path_getsize, docx_Document,
      logger_error, mbind, M_bind, bind.
    cbn. repeat (rewrite Hfile; cbn).
    destruct c as [ps|ct|bs|d]; [destruct (Hnot ps); done| | |];
      cbn; repeat (rewrite Hfile; cbn);
      (eexists; eexists; split; [reflexivity|]; cbn;
       split; [done|]; split; [done|]; rewrite <- app_assoc; done). }
  destruct Hrun as (e & s' & Hrun & Hcls & Hfs & Htr).
  unfold outcome, events_of, final. rewrite Hrun. cbn.
  split; [|exact Hfs].
  exists e. split; [done|]. split; [done|].
  rewrite Htr. apply drop_app_length.
Qed.

Lemma word_to_pdf_rejects_non_word_file_witness :
  let w := deployment (Docx sample_paragraphs) None in
  let s := with_file (py "/srv/bot/temp/macro.docx")
             (OtherPackage (py "application/vnd.ms-word.document.macroEnabled.main+xml"))
             (with_file (py "/srv/bot/temp/old.doc") (Blob [208; 207; 17; 224])
                fresh_state) in
  (word_ext_ok (py "temp/old.doc") = true
   /\ word_ext_ok (py "temp/macro.docx") = true)
  /\ (exists e,
        outcome (word_to_pdf w (file_converter w) (py "temp/old.doc")) s
        = Raise e /\ exn_cls e = OtherException)
  /\ (exists e,
        outcome (word_to_pdf w (file_converter w) (py "temp/macro.docx")) s
        = Raise e /\ exn_cls e = ValueError)
  /\ fs (final (word_to_pdf w (file_converter w) (py "temp/macro.docx")) s)
     = fs s.
Proof.
  cbv zeta.
  set (w := deployment (Docx sample_paragraphs) None).
  set (s := with_file _ _ _).
  assert (H1 : word_ext_ok (py "temp/old.doc") = true)
    by (vm_compute; reflexivity).
  assert (H2 : word_ext_ok (py "temp/macro.docx") = true)
    by (vm_compute; reflexivity).
  assert (F1 : fs s !! resolve w (py "temp/old.doc")
               = Some (Blob [208; 207; 17; 224]))
    by (vm_compute; reflexivity).
  assert (F2 : fs s !! resolve w (py "temp/macro.docx")
               = Some (OtherPackage
                         (py "application/vnd.ms-word.document.macroEnabled.main+xml")))
    by (vm_compute; reflexivity).
  split; [split; assumption|].
  destruct (word_to_pdf_rejects_non_word_file w (file_converter w)
              (py "temp/old.doc") _ s H1 F1) as ((e1 & Ho1 & Hc1 & _) & _);
    [intros ps; discriminate|].
  destruct (word_to_pdf_rejects_non_word_file w (file_converter w)
              (py "temp/macro.docx") _ s H2 F2) as ((e2 & Ho2 & Hc2 & _) & Hfs);
    [intros ps; discriminate|].
  split; [exists e1; split; assumption|].
  split; [exists e2; split; assumption | exact Hfs].
Defined.

(** ** The successful Word job *)

Lemma delete_both_after_inserts (m : gmap (list N) FileContent) a b x y :
  delete b (delete a (<[b := y]> (<[a := x]> m))) = delete b (delete a m).
Proof.
  apply map_eq. intros k.
  destruct (decide (b = k)) as [->|Hb].
  - by rewrite !lookup_delete_eq.
  - rewrite !(lookup_delete_ne _ b k) by done.
    destruct (decide (a = k)) as [->|Ha].
    + by rewrite !lookup_delete_eq.
    + rewrite !(lookup_delete_ne _ a k) by done.
      by rewrite !lookup_insert_ne by done.
Qed.

(** X11. The successful Word job: when the directory, the download, the
    progress reply, the PDF output, the upload and the removals all
    succeed and Telegram serves a Word package under a name the converter
    accepts, the job ends normally and these are all its events, in
    order: the creation of temp, the download to temp/<name>, the progress
    reply, one document sent to the chat (the PDF named after the output
    path, with the success caption, holding the cleaned text of the
    non-blank paragraphs in order), the removal of the download and the
    removal of the output (which is skipped if both paths name the same
    file).  Afterwards neither file exists. *)
Theorem transfer_job_sends_converted_pdf
    (w : World) (chat : N) (fid name : pystr) (paragraphs : list pystr)
    (s : State) :
  let download := job_download_path name in
  let output := job_output_path w WORD_TO_PDF name in
  word_ext_ok download = true ->
  w_mkdir w (py "temp") = None ->
  w_get_file w fid = None ->
  w_download w fid = IODone ->
  w_remote w fid = Docx paragraphs ->
  w_reply w MSG_CONVERTING = None ->
  w_fpdf_output w output = IODone ->
  w_send_document w = None ->
  w_remove w download = None ->
  w_remove w output = None ->
  outcome (transfer_job w chat WORD_TO_PDF fid name) s = Ret tt
  /\ events_of (transfer_job w chat WORD_TO_PDF fid name) s
     = [EvMkdir (py "temp"); EvGetFile fid; EvDownload fid download;
        EvReply MSG_CONVERTING;
        EvSendDocument chat (Path_name (Path_of output)) CAPTION_PDF
          (PdfFile (List.map (List.filter (fun c => c <? 128))
                      (List.filter non_blank paragraphs)));
        EvRemove download]
       ++ (if bool_decide (resolve w download = resolve w output)
           then [] else [EvRemove output])
  /\ fs (final (transfer_job w chat WORD_TO_PDF fid name) s)
     = delete (resolve w output) (delete (resolve w download) (fs s)).
Proof.
  intros download output Hext Hmk Hget Hdl Hrem Hrep Hout Hsend Hrm1 Hrm2.
  unfold download, output, job_output_path, job_download_path in *.
  rewrite str_eqb_refl in *.
  set (dl := Path_str (Path_div (Path_of (py "temp")) name)) in *.
  set (out := Path_str (Path_div (temp_dir (file_converter w))
                          (Path_stem (Path_of dl) ++ py ".pdf"))) in *.
  set (blocks := List.map (List.filter (fun c => c <? 128))
                   (List.filter non_blank paragraphs)).
  assert (Hrun : exists s2,
            transfer_job w chat WORD_TO_PDF fid name s = (Ret tt, s2)
            /\ trace s2 = trace s ++
                 [EvMkdir (py "temp"); EvGetFile fid; EvDownload fid dl;
                  EvReply MSG_CONVERTING;
                  EvSendDocument chat (Path_name (Path_of out)) CAPTION_PDF
                    (PdfFile blocks);
                  EvRemove dl]
                 ++ (if bool_decide (resolve w dl = resolve w out)
                     then [] else [EvRemove out])
            /\ fs s2 = delete (resolve w out) (delete (resolve w dl) (fs s))).
  { unfold transfer_job, try_finally, try_except, transfer_body, external,
      reply_text, external, write_file, os_path_exists, os_path_getsize,
      open_rb, mbind, M_bind, bind.
    change (Path_str (Path_of (py "temp"))) with (py "temp").
    fold dl. cbn. rewrite Hmk. cbn. rewrite Hget. cbn. rewrite Hdl. cbn.
    repeat (rewrite lookup_insert_eq; cbn).
    rewrite Hrep. cbn. rewrite str_eqb_refl.
    erewrite (word_to_pdf_run w (file_converter w) dl paragraphs);
      [| exact Hext | cbn; rewrite Hrem; apply lookup_insert_eq | exact Hout ].
    fold out blocks. cbn.
    repeat (rewrite lookup_insert_eq; cbn).
    rewrite Hsend. cbn.
    unfold transfer_finally, cleanup_temp_files, try_except, os_path_exists,
      os_remove, mbind, M_bind, bind.
    cbn. fold dl. rewrite (Path_str_truthy _ : truthy out = true).
    destruct (decide (resolve w dl = resolve w out)) as [Heq|Hne].
    - rewrite (bool_decide_eq_true_2 _ Heq). rewrite Heq.
      repeat (first [ rewrite lookup_insert_eq | rewrite lookup_delete_eq
                    | rewrite Hrm1 ]; cbn).
      eexists. split; [reflexivity|]. cbn. split.
      + rewrite <- !app_assoc. done.
      + rewrite <- (delete_both_after_inserts (fs s) (resolve w out)
                      (resolve w out) (w_remote w fid) (PdfFile blocks)).
        symmetry. apply delete_id. apply lookup_delete_eq.
    - rewrite (bool_decide_eq_false_2 _ Hne).
      repeat (first
                [ rewrite lookup_insert_eq
                | rewrite (lookup_insert_ne _ (resolve w out) (resolve w dl))
                    by done
                | rewrite (lookup_delete_ne _ (resolve w dl) (resolve w out))
                    by done
                | rewrite Hrm1 | rewrite Hrm2 ]; cbn).
      eexists. split; [reflexivity|]. cbn. split.
      + rewrite <- !app_assoc. done.
      + apply delete_both_after_inserts. }
  destruct Hrun as (s2 & Hrun & Htr & Hfs).
  unfold outcome, events_of, final. rewrite Hrun. cbn.
  split; [done|]. split; [rewrite Htr; apply drop_app_length | exact Hfs].
Qed.

Lemma transfer_job_sends_converted_pdf_witness :
  let w := deployment (Docx sample_paragraphs) None in
  word_ext_ok (job_download_path (py "report.docx")) = true
  /\ outcome (transfer_job w 1 WORD_TO_PDF (py "file-1") (py "report.docx"))
       fresh_state = Ret tt
  /\ events_of (transfer_job w 1 WORD_TO_PDF (py "file-1") (py "report.docx"))
       fresh_state
     = [EvMkdir (py "temp"); EvGetFile (py "file-1");
        EvDownload (py "file-1") (py "temp/report.docx");
        EvReply MSG_CONVERTING;
        EvSendDocument 1 (py "report.pdf") CAPTION_PDF
          (PdfFile sample_paragraphs);
        EvRemove (py "temp/report.docx");
        EvRemove (py "/srv/bot/temp/report.pdf")].
Proof.
  cbv zeta.
  assert (H : word_ext_ok (job_download_path (py "report.docx")) = true)
    by (vm_compute; reflexivity).
  split; [exact H|].
  destruct (transfer_job_sends_converted_pdf
              (deployment (Docx sample_paragraphs) None) 1 (py "file-1")
              (py "report.docx") sample_paragraphs fresh_state
              H eq_refl eq_refl eq_refl eq_refl eq_refl eq_refl eq_refl
              eq_refl eq_refl)
    as (Ha & Hb & _).
  split; [exact Ha|]. rewrite Hb. vm_compute. reflexivity.
Defined.
